(** * cluster-cache: the coordinator (ClusterCache.ts) and the client proxy
    (ClusterCacheClient.ts), embedded as state-passing functions.

    The primary process owns one LRU store; workers reach it through
    request/reply messages correlated by a request id.  The embedding
    follows the TypeScript sources function by function.  What the sources
    import (lru-cache, uuid, node:cluster, timers, promises) is modelled
    only as far as the sources use it:
    - the store is a finite map from composite key to value, taken at a
      time when none of its entries has expired; recency is not modelled,
      the outcome of [set] (rejection, eviction) is a parameter of the
      development;
    - the channel between the processes is Node's default, which writes
      a message as JSON and reads it back;
    - uuid's [v4] is a parameter [generateId] indexed by the number of ids
      drawn so far;
    - timers and promises are tables of the process state. *)

From Stdlib Require Import ZArith Ascii.
From stdpp Require Import gmap strings list fin_maps pretty.

Set Warnings "-register-all".
Local Open Scope Z_scope.

(** ** JavaScript values that travel through the protocol *)

(** The values of the model: [undefined], [null], booleans, numbers that
    are safe integers (of magnitude below 2^53), strings, plain objects
    whose properties hold such values (none of them a function), and
    [Error] objects with their [name] and [message]. *)
Inductive Value :=
  | VUndefined
  | VNull
  | VBool (b : bool)
  | VNum (n : Z)
  | VStr (s : string)
  | VObj (fields : list (string * Value))
  | VError (name message : string).

(** ToBoolean, as used by [reply.error ? ... : ...]. *)
Definition truthy (v : Value) : bool :=
  match v with
  | VUndefined | VNull => false
  | VBool b => b
  | VNum n => negb (n =? 0)
  | VStr s => negb (String.eqb s "")
  | VObj _ | VError _ _ => true
  end.

(** A statement either completes normally or throws a value. *)
Inductive Completion (A : Type) :=
  | Normal (a : A)
  | Throw (e : Value).
Arguments Normal {A} a.
Arguments Throw {A} e.

(** [Error.prototype.toString]: the name alone when the message is
    empty, the message alone when the name is empty. *)
Definition Error_toString (name message : string) : string :=
  if String.eqb name "" then message
  else if String.eqb message "" then name
  else name +:+ ": " +:+ message.

(** ToString, as used by a template literal.  A safe integer is written
    as its decimal numeral.  A plain object is written by the inherited
    [Object.prototype.toString], unless it has a property [toString] of
    its own: that property holds no function, the inherited [valueOf]
    returns the object itself, and the conversion throws. *)
Definition toString (v : Value) : Completion string :=
  match v with
  | VUndefined => Normal "undefined"
  | VNull => Normal "null"
  | VBool true => Normal "true"
  | VBool false => Normal "false"
  | VNum n => Normal (pretty n)
  | VStr s => Normal s
  | VObj fields =>
    if bool_decide ("toString" ∈ fields.*1)
    then Throw (VError "TypeError" "Cannot convert object to primitive value")
    else Normal "[object Object]"
  | VError name message => Normal (Error_toString name message)
  end.

(** [JSON.parse(JSON.stringify(v))]: what is left of a value that has
    gone through the channel.  An [Error] has no enumerable property of
    its own and comes out as the empty object; a property that holds
    [undefined] is left out. *)
Fixpoint json (v : Value) : Value :=
  match v with
  | VObj fields =>
    VObj ((fix properties (l : list (string * Value)) : list (string * Value) :=
             match l with
             | [] => []
             | (k, VUndefined) :: l' => properties l'
             | (k, x) :: l' => (k, json x) :: properties l'
             end) fields)
  | VError _ _ => VObj []
  | _ => v
  end.

(** ** types.ts *)

Module Types.

(** Per-request options: the union of lru-cache's get and set options the
    sources name.  An absent property is [None]. *)
Record Options := {
  allowStale : option bool;
  ttl : option Z;
  updateAgeOnGet : option bool;
  size : option Z;
}.

Record CacheFnArguments := {
  key : option string;
  namespace : string;
  options : option Options;
  value : Value;
}.

(** [Methods] is a string at run time: the message comes off the IPC
    channel, and [getCacheFn] has a [default] branch for the rest. *)
Definition Methods := string.

Record Request := {
  args : CacheFnArguments;
  req_clientId : string;
  operation : Methods;
  req_requestId : string;
  req_sourceId : string;
}.

(** An absent [data] or [error] is [VUndefined]. *)
Record Reply := {
  clientId : string;
  data : Value;
  error : Value;
  requestId : string;
  sourceId : string;
}.

End Types.

(** ** The channel (node:cluster, JSON serialization) *)

Module IPC.

(** A request as the primary process receives it.  Absent properties of
    [args] stay absent; the value to store arrives as its JSON image. *)
Definition request (message : Types.Request) : Types.Request :=
  {| Types.args :=
       {| Types.key := Types.key (Types.args message);
          Types.namespace := Types.namespace (Types.args message);
          Types.options := Types.options (Types.args message);
          Types.value := json (Types.value (Types.args message)) |};
     Types.req_clientId := Types.req_clientId message;
     Types.operation := Types.operation message;
     Types.req_requestId := Types.req_requestId message;
     Types.req_sourceId := Types.req_sourceId message |}.

(** A reply as the worker receives it: [data] and [error] arrive as
    their JSON images. *)
Definition reply (message : Types.Reply) : Types.Reply :=
  {| Types.clientId := Types.clientId message;
     Types.data := json (Types.data message);
     Types.error := json (Types.error message);
     Types.requestId := Types.requestId message;
     Types.sourceId := Types.sourceId message |}.

End IPC.

(** [String.prototype.startsWith] *)
Definition startsWith (s searchString : string) : bool :=
  String.prefix searchString s.

(** Whether the character [c] occurs in [s]; used to say which namespaces
    contain the codec's separator. *)
Fixpoint contains (c : ascii) (s : string) : bool :=
  match s with
  | EmptyString => false
  | String a s' => if Ascii.eqb a c then true else contains c s'
  end.

(** A logger object is known by its identity: [console] is Node's
    global, any other logger has a name.  Which functions its properties
    hold is not modelled; a call of [logger.warn] is recorded with the
    object it was made on. *)
Inductive Logger :=
  | console
  | customLogger (name : string).

(** ** The external store (package lru-cache) *)

Module LRUCache.

(** The constructor options the README names. *)
Record Options := {
  max : option Z;
  maxSize : option Z;
  ttl : option Z;
}.

(** What the coordinator does not decide itself: whether the store
    constructor accepts the options, and what a [set] does to the store
    (store the value, throw, evict other entries). [inl e] is a throw,
    which leaves the store as it was. *)
Class Model := {
  new : Options → Value + gmap string Value;
  set : gmap string Value → string → Value → option Types.Options →
        Value + gmap string Value;
}.

(** The part of the contract of [set] the coordinator's callers rely on:
    a [set] creates no entry under a key other than its own. *)
Class Laws `{Model} := {
  set_creates_nothing_else :
    ∀ (c c' : gmap string Value) k v o k',
      set c k v o = inr c' → k' ≠ k → c !! k' = None → c' !! k' = None;
}.

(** [cache.get(key, options)] on a store none of whose entries has
    expired: the value of the entry, or [undefined]; the options bear on
    expired entries and on ages only. *)
Definition get (c : gmap string Value) (key : string)
    (options : option Types.Options) : Value :=
  default VUndefined (c !! key).

(** The entries [cache.forEach] visits: those that have not expired,
    which here are all. *)
Definition visited (c : gmap string Value) : list (string * Value) :=
  map_to_list c.

(** An unbounded store that accepts every value: the simplest model. *)
Definition unbounded : Model := {|
  new := λ _, inr ∅;
  set := λ c k v _, inr (<[k := v]> c);
|}.

(** A store that rejects every value it is given. *)
Definition rejecting : Model := {|
  new := λ _, inr ∅;
  set := λ _ _ _ _, inl (VError "TypeError" "invalid size value");
|}.

End LRUCache.

(** ** ClusterCache.ts *)

Module ClusterCache.
Section WithStore.
Context `{store : LRUCache.Model}.

(** A worker of the cluster, by its id. *)
Definition Worker := nat.

(** The fields of a [ClusterCache] object. *)
Record t := {
  cache : gmap string Value;
  logger : Logger;
  options : LRUCache.Options;
  sourceId : string;
}.

(** The process as the class sees it: [cluster.isPrimary], the static
    [ClusterCache.instance] (a reference into [objects], the constructed
    coordinators in allocation order) and the listeners of the cluster's
    ['message'] event (each the [handleRequest] of an object). *)
Record State := {
  isPrimary : bool;
  objects : list t;
  instance : option nat;
  listeners : list nat;
}.

(** The state when the module has just been loaded. *)
Definition start (isPrimary : bool) : State :=
  {| isPrimary := isPrimary; objects := []; instance := None; listeners := [] |}.

(** [constructor(options, logger = console)]: returns the reference the
    [new] expression evaluates to. *)
Definition constructor (st : State) (options : LRUCache.Options)
    (logger : Logger) : Completion nat * State :=
  match instance st with
  | Some existing => (Normal existing, st)
  | None =>
    if negb (isPrimary st) then
      (Throw (VError "Error"
         "A shared cache may only be initialized on the primary process."), st)
    else
      match LRUCache.new options with
      | inl e => (Throw e, st)
      | inr store =>
        let this := length (objects st) in
        (Normal this,
         {| isPrimary := isPrimary st;
            objects := objects st ++
              [{| cache := store; logger := logger; options := options;
                  sourceId := "cluster-cache" |}];
            instance := Some this;
            listeners := listeners st ++ [this] |})
      end
  end.

(** [applyNamespace = (namespace, key = '') => `${namespace}:${key}`] *)
Definition applyNamespace (namespace : string) (key : option string) : string :=
  namespace +:+ ":" +:+ default "" key.

(** [this] with its store replaced: what a mutation of [this.cache]
    leaves behind. *)
Definition with_cache (this : t) (c : gmap string Value) : t :=
  {| cache := c; logger := logger this; options := options this;
     sourceId := sourceId this |}.

(** The callback [clear] hands to [forEach]: delete the visited key when
    it starts with the prefix. *)
Definition visit (prefix : string) (c : gmap string Value)
    (entry : string * Value) : gmap string Value :=
  if startsWith entry.1 prefix then base.delete entry.1 c else c.

(** [clear]: [forEach] visits every entry of the store. *)
Definition clear (this : t) (args : Types.CacheFnArguments)
    : Completion Value * t :=
  (Normal (VStr "OK"),
   with_cache this
     (foldl (visit (applyNamespace (Types.namespace args) (Some "")))
        (cache this) (LRUCache.visited (cache this)))).

(** [delete]: absent or not, the key is gone afterwards. *)
Definition delete (this : t) (args : Types.CacheFnArguments)
    : Completion Value * t :=
  (Normal (VStr "OK"),
   with_cache this
     (base.delete (applyNamespace (Types.namespace args) (Types.key args))
        (cache this))).

(** [get]: a miss is [undefined]. *)
Definition get (this : t) (args : Types.CacheFnArguments)
    : Completion Value * t :=
  (Normal (LRUCache.get (cache this)
     (applyNamespace (Types.namespace args) (Types.key args))
     (Types.options args)),
   this).

(** [set]: a throw of the store is caught and thrown again as an [Error]
    that names the composite key; when the caught value cannot be
    converted to a string, the conversion's own error is thrown. *)
Definition set (this : t) (args : Types.CacheFnArguments)
    : Completion Value * t :=
  let composite := applyNamespace (Types.namespace args) (Types.key args) in
  match LRUCache.set (cache this) composite (Types.value args)
          (Types.options args) with
  | inr c => (Normal (VStr "OK"), with_cache this c)
  | inl error =>
    match toString error with
    | Normal text =>
      (Throw (VError "Error"
         ("Failed to cache value for key " +:+ composite +:+ ": " +:+ text)),
       this)
    | Throw e => (Throw e, this)
    end
  end.

(** The four methods [getCacheFn] can return. *)
Inductive CacheFn := FnClear | FnDelete | FnGet | FnSet.

(** [cacheFn(args)] *)
Definition call (fn : CacheFn) : t → Types.CacheFnArguments → Completion Value * t :=
  match fn with
  | FnClear => clear
  | FnDelete => delete
  | FnGet => get
  | FnSet => set
  end.

(** [getCacheFn]: the [switch] over the operation name. *)
Definition getCacheFn (operation : Types.Methods) : Completion CacheFn :=
  if String.eqb operation "clear" then Normal FnClear
  else if String.eqb operation "delete" then Normal FnDelete
  else if String.eqb operation "get" then Normal FnGet
  else if String.eqb operation "set" then Normal FnSet
  else Throw (VError "TypeError"
         ("'" +:+ operation +:+ "' is not a recognized cluster cache operation.")).

(** The operation names the [switch] has a [case] for. *)
Definition recognized (operation : Types.Methods) : bool :=
  bool_decide (operation ∈ ["clear"; "delete"; "get"; "set"]).

(** [reply]: [worker.send(reply)], recorded as the message it sends; the
    send itself is taken not to throw. *)
Definition reply (worker : Worker) (r : Types.Reply) : list (Worker * Types.Reply) :=
  [(worker, r)].

(** [handleRequest]: the completion of the call, the object afterwards and
    the messages sent.  [getCacheFn] is called before the [try] block. *)
Definition handleRequest (this : t) (worker : Worker) (request : Types.Request)
    : Completion unit * t * list (Worker * Types.Reply) :=
  match getCacheFn (Types.operation request) with
  | Throw e => (Throw e, this, [])
  | Normal cacheFn =>
    match call cacheFn this (Types.args request) with
    | (Normal data, this') =>
      (Normal (), this',
       reply worker
         {| Types.clientId := Types.req_clientId request;
            Types.data := data;
            Types.error := VUndefined;
            Types.requestId := Types.req_requestId request;
            Types.sourceId := Types.req_sourceId request |})
    | (Throw error, this') =>
      (Normal (), this',
       reply worker
         {| Types.clientId := Types.req_clientId request;
            Types.data := VUndefined;
            Types.error := error;
            Types.requestId := Types.req_requestId request;
            Types.sourceId := Types.req_sourceId request |})
    end
  end.

(** The cluster's ['message'] event: the subscribed [handleRequest] of each
    listener in turn, on the object it is bound to; a throw ends the
    emission and reaches the caller of [emit]. *)
Fixpoint emit (ls : list nat) (objs : list t) (worker : Worker)
    (request : Types.Request)
    : Completion unit * list t * list (Worker * Types.Reply) :=
  match ls with
  | [] => (Normal (), objs, [])
  | this :: ls' =>
    match objs !! this with
    | None => emit ls' objs worker request
    | Some obj =>
      match handleRequest obj worker request with
      | (Throw e, obj', out) => (Throw e, <[this := obj']> objs, out)
      | (Normal _, obj', out) =>
        let '(r, objs', out') := emit ls' (<[this := obj']> objs) worker request in
        (r, objs', out ++ out')
      end
    end
  end.

(** One message from a worker, in the state of the class. *)
Definition on_message (st : State) (worker : Worker) (request : Types.Request)
    : Completion unit * State * list (Worker * Types.Reply) :=
  let '(r, objs, out) := emit (listeners st) (objects st) worker request in
  (r, {| isPrimary := isPrimary st; objects := objs;
         instance := instance st; listeners := listeners st |}, out).

(** The messages of a list handled one after the other, whatever each
    handling completes with. *)
Definition on_messages (st : State) (msgs : list (Worker * Types.Request)) : State :=
  foldl (λ st' m, (on_message st' m.1 m.2).1.2) st msgs.

(** What happens in a process, as far as the class is concerned: a
    [new ClusterCache(options, logger)] somewhere in the program, or a
    message from a worker. *)
Inductive Event :=
  | Construct (options : LRUCache.Options) (logger : Logger)
  | Message (worker : Worker) (request : Types.Request).

(** The state after one event, whatever the event completes with. *)
Definition step (st : State) (ev : Event) : State :=
  match ev with
  | Construct options logger => (constructor st options logger).2
  | Message worker request => (on_message st worker request).1.2
  end.

(** The state after a sequence of events. *)
Definition run (st : State) (evs : list Event) : State := foldl step st evs.

(** Either nothing has been constructed, or there is one object, it is
    the instance, and its [handleRequest] is the one listener. *)
Definition single (st : State) : Prop :=
  (instance st = None ∧ objects st = [] ∧ listeners st = [])
  ∨ (instance st = Some 0%nat ∧ length (objects st) = 1%nat
     ∧ listeners st = [0%nat]).

End WithStore.
End ClusterCache.

(** ** The external id generator (package uuid) *)

Module Uuid.

(** [v4()], imported as [generateId]: the id returned by the n-th draw of
    the process. *)
Class Model := generateId : nat → string.

(** Draw number n gives the decimal numeral of n after a fixed prefix. *)
Definition counting : Model := λ n, "id-" +:+ pretty (N.of_nat n).

End Uuid.

(** ** lodash's [merge], at the two object shapes the client merges *)

Module Lodash.

(** A source property that is [undefined] or absent leaves the
    destination's property as it is; a boolean, a number or a string is
    assigned. *)
Definition mergeValue {A} (objValue : A) (srcValue : option A) : A :=
  default objValue srcValue.

(** The same for a property that may be absent on both sides. *)
Definition mergeProperty {A} (objValue srcValue : option A) : option A :=
  match srcValue with
  | Some v => Some v
  | None => objValue
  end.

(** [merge(object, source)] on request options.  In JavaScript the call
    mutates [object] and returns it: the caller below writes the result
    back to where [object] lives.  [source] may be [undefined]. *)
Definition merge_options (object : Types.Options) (source : option Types.Options)
    : Types.Options :=
  match source with
  | None => object
  | Some src =>
    {| Types.allowStale := mergeProperty (Types.allowStale object) (Types.allowStale src);
       Types.ttl := mergeProperty (Types.ttl object) (Types.ttl src);
       Types.updateAgeOnGet :=
         mergeProperty (Types.updateAgeOnGet object) (Types.updateAgeOnGet src);
       Types.size := mergeProperty (Types.size object) (Types.size src) |}
  end.

End Lodash.

(** ** ClusterCacheClient.ts *)

Module ClusterCacheClient.
Section WithIds.
Context `{ids : Uuid.Model}.

(** The shape of [ClusterCacheClient.defaultConfig]. *)
Record Config := {
  allowOverrides : bool;
  logger : Logger;
  namespace : string;
  requestTimeout : Z;
  requestOptions : Types.Options;
  updateAgeOnGet : bool;
}.

(** A logger given in a configuration is either an object that is not a
    plain object (the console, an instance of a class) or an object
    literal with the logging functions as its properties. *)
Inductive LoggerArgument :=
  | loggerInstance (object : Logger)
  | loggerLiteral (name : string).

(** The constructor's argument: any subset of the properties above
    ([requestOptions] itself partial). *)
Record ConfigArgument := {
  arg_allowOverrides : option bool;
  arg_logger : option LoggerArgument;
  arg_namespace : option string;
  arg_requestTimeout : option Z;
  arg_requestOptions : option Types.Options;
  arg_updateAgeOnGet : option bool;
}.

(** [{}] *)
Definition emptyConfig : ConfigArgument :=
  {| arg_allowOverrides := None; arg_logger := None; arg_namespace := None;
     arg_requestTimeout := None; arg_requestOptions := None;
     arg_updateAgeOnGet := None |}.

(** What [merge] leaves in the property [logger].  A logger that is not
    a plain object is assigned.  An object literal is merged, property by
    property, into the logger object that is there: that object stays
    the value of the property (with properties overwritten, which the
    model does not follow). *)
Definition merge_logger (objValue : Logger) (srcValue : option LoggerArgument)
    : Logger :=
  match srcValue with
  | Some (loggerInstance object) => object
  | Some (loggerLiteral _) => objValue
  | None => objValue
  end.

(** [merge(object, source)] on configurations: booleans, numbers and
    strings are assigned, the nested [requestOptions] object is merged in
    place, the logger as above. *)
Definition merge_config (object : Config) (source : ConfigArgument) : Config :=
  {| allowOverrides :=
       Lodash.mergeValue (allowOverrides object) (arg_allowOverrides source);
     logger := merge_logger (logger object) (arg_logger source);
     namespace := Lodash.mergeValue (namespace object) (arg_namespace source);
     requestTimeout :=
       Lodash.mergeValue (requestTimeout object) (arg_requestTimeout source);
     requestOptions :=
       Lodash.merge_options (requestOptions object) (arg_requestOptions source);
     updateAgeOnGet :=
       Lodash.mergeValue (updateAgeOnGet object) (arg_updateAgeOnGet source) |}.

(** The initial value of the static [defaultConfig]. *)
Definition initialDefaultConfig : Config :=
  {| allowOverrides := false;
     logger := console;
     namespace := "";
     requestTimeout := 300;
     requestOptions :=
       {| Types.allowStale := Some false; Types.ttl := Some 300000;
          Types.updateAgeOnGet := Some true; Types.size := None |};
     updateAgeOnGet := true |}.

(** A registered callback [(reply) => { clearTimeout(failsafeTimeout);
    return reply.error ? reject(reply.error) : resolve(reply.data) }]:
    the timer handle and the promise its closure holds. *)
Record PendingRequest := {
  failsafeTimeout : nat;
  promise : nat;
}.

(** The fields of a [ClusterCacheClient] object.  [this.config] is not a
    field of its own here: [merge] returns its first argument, so every
    client's [config] is the one object [ClusterCacheClient.defaultConfig],
    which lives in the process state below. *)
Record t := {
  clientId : string;
  this_logger : Logger;
  this_namespace : string;
  pendingRequests : gmap string PendingRequest;
  sourceId : string;
}.

(** A scheduled [setTimeout] callback [() => reject(new Error(...))]: the
    delay and what its closure holds. *)
Record Timer := {
  delay : Z;
  timer_operation : Types.Methods;
  timer_requestId : string;
  timer_clientId : string;
  timer_promise : nat;
}.

(** A promise is pending until it is resolved or rejected. *)
Inductive PromiseState :=
  | Pending
  | Fulfilled (v : Value)
  | Rejected (reason : Value).

(** The process as the class sees it: [cluster.isPrimary], the static
    [defaultConfig] object, the number of ids drawn from uuid, the active
    timers and the number of timers created, the promises in creation
    order, whether [process.send] is defined and what was sent through
    it, the warnings logged, and the listeners of the process's
    ['message'] event (by client id). *)
Record State := {
  isPrimary : bool;
  defaultConfig : Config;
  idsDrawn : nat;
  timers : gmap nat Timer;
  timersCreated : nat;
  promises : list PromiseState;
  canSend : bool;
  sent : list Types.Request;
  warnings : list (Logger * string);
  listeners : list string;
}.

(** The state when the module has just been loaded, in a process that
    can send to its parent. *)
Definition start (isPrimary : bool) : State :=
  {| isPrimary := isPrimary; defaultConfig := initialDefaultConfig;
     idsDrawn := 0; timers := ∅; timersCreated := 0; promises := [];
     canSend := true; sent := []; warnings := []; listeners := [] |}.

(** [resolve] and [reject] settle a promise once; later calls do nothing. *)
Definition settle (ps : list PromiseState) (p : nat) (s : PromiseState)
    : list PromiseState :=
  match ps !! p with
  | Some Pending => <[p := s]> ps
  | _ => ps
  end.

(** [constructor(config = {})] *)
Definition constructor (st : State) (config : option ConfigArgument)
    : Completion t * State :=
  if isPrimary st then
    (Throw (VError "Error"
       "Cluster cache client may not be initialized in the cluster's primary process."),
     st)
  else
    let id := Uuid.generateId (idsDrawn st) in
    let config' := merge_config (defaultConfig st) (default emptyConfig config) in
    (Normal {| clientId := id;
               this_logger := logger config';
               this_namespace :=
                 if String.eqb (namespace config') "" then id else namespace config';
               pendingRequests := ∅;
               sourceId := "cluster-cache" |},
     {| isPrimary := isPrimary st;
        defaultConfig := config';
        idsDrawn := S (idsDrawn st);
        timers := timers st;
        timersCreated := timersCreated st;
        promises := promises st;
        canSend := canSend st;
        sent := sent st;
        warnings := warnings st;
        listeners := listeners st ++ [id] |}).

(** [this.config] *)
Definition config (st : State) (this : t) : Config := defaultConfig st.

(** A configuration object after [requestOptions] has been written to. *)
Definition with_requestOptions (c : Config) (o : Types.Options) : Config :=
  {| allowOverrides := allowOverrides c; logger := logger c;
     namespace := namespace c; requestTimeout := requestTimeout c;
     requestOptions := o; updateAgeOnGet := updateAgeOnGet c |}.

(** The warning [addRequestOptions] logs. *)
Definition overridesWarning : string :=
  "Overrides not applied because cluster cache client not configured to allow per-operation overrides.".

(** [addRequestOptions]: the arguments of the request, and the state after
    the warning or after [merge] has written into
    [this.config.requestOptions]. *)
Definition addRequestOptions (this : t) (st : State)
    (args : Types.CacheFnArguments) (overrides : option Types.Options)
    : Types.CacheFnArguments * State :=
  if bool_decide (is_Some overrides) && negb (allowOverrides (config st this)) then
    (args,
     {| isPrimary := isPrimary st;
        defaultConfig := defaultConfig st;
        idsDrawn := idsDrawn st;
        timers := timers st;
        timersCreated := timersCreated st;
        promises := promises st;
        canSend := canSend st;
        sent := sent st;
        warnings := warnings st ++
          [(this_logger this, overridesWarning)];
        listeners := listeners st |})
  else
    let merged := Lodash.merge_options (requestOptions (config st this)) overrides in
    ({| Types.key := Types.key args;
        Types.namespace := Types.namespace args;
        Types.options := Some merged;
        Types.value := Types.value args |},
     {| isPrimary := isPrimary st;
        defaultConfig := with_requestOptions (defaultConfig st) merged;
        idsDrawn := idsDrawn st;
        timers := timers st;
        timersCreated := timersCreated st;
        promises := promises st;
        canSend := canSend st;
        sent := sent st;
        warnings := warnings st;
        listeners := listeners st |}).

(** The text of the error the failsafe timeout rejects with. *)
Definition timeoutMessage (operation requestId clientId : string) : string :=
  "Cluster cache " +:+ operation +:+ " request timed out: request ID "
  +:+ requestId +:+ ", client ID " +:+ clientId +:+ ".".

(** The [message] that [request] builds; the request id is the next id
    drawn. *)
Definition message (this : t) (st : State) (operation : Types.Methods)
    (args : Types.CacheFnArguments) : Types.Request :=
  {| Types.args := args;
     Types.req_clientId := clientId this;
     Types.operation := operation;
     Types.req_requestId := Uuid.generateId (idsDrawn st);
     Types.req_sourceId := sourceId this |}.

(** [request]: the promise returned, the client afterwards and the state
    afterwards. *)
Definition request (this : t) (st : State) (operation : Types.Methods)
    (args : Types.CacheFnArguments) : nat * t * State :=
  let p := length (promises st) in
  let requestId := Uuid.generateId (idsDrawn st) in
  let handle := timersCreated st in
  let timer :=
    {| delay := requestTimeout (config st this);
       timer_operation := operation;
       timer_requestId := requestId;
       timer_clientId := clientId this;
       timer_promise := p |} in
  (p,
   {| clientId := clientId this;
      this_logger := this_logger this;
      this_namespace := this_namespace this;
      pendingRequests :=
        <[requestId := {| failsafeTimeout := handle; promise := p |}]>
          (pendingRequests this);
      sourceId := sourceId this |},
   {| isPrimary := isPrimary st;
      defaultConfig := defaultConfig st;
      idsDrawn := S (idsDrawn st);
      timers := <[handle := timer]> (timers st);
      timersCreated := S (timersCreated st);
      promises := promises st ++ [Pending];
      canSend := canSend st;
      sent :=
        if canSend st then sent st ++ [message this st operation args] else sent st;
      warnings := warnings st;
      listeners := listeners st |}).

(** The four operations: each returns the promise of its [request]. *)
Definition clear (this : t) (st : State) : nat * t * State :=
  let baseArgs :=
    {| Types.key := None; Types.namespace := this_namespace this;
       Types.options := None; Types.value := VUndefined |} in
  request this st "clear" baseArgs.

Definition delete (this : t) (st : State) (key : string) : nat * t * State :=
  let baseArgs :=
    {| Types.key := Some key; Types.namespace := this_namespace this;
       Types.options := None; Types.value := VUndefined |} in
  request this st "delete" baseArgs.

Definition get (this : t) (st : State) (key : string)
    (overrides : option Types.Options) : nat * t * State :=
  let baseArgs :=
    {| Types.key := Some key; Types.namespace := this_namespace this;
       Types.options := None; Types.value := VUndefined |} in
  let '(args, st') := addRequestOptions this st baseArgs overrides in
  request this st' "get" args.

Definition set (this : t) (st : State) (key : string) (value : Value)
    (overrides : option Types.Options) : nat * t * State :=
  let baseArgs :=
    {| Types.key := Some key; Types.namespace := this_namespace this;
       Types.options := None; Types.value := value |} in
  let '(args, st') := addRequestOptions this st baseArgs overrides in
  request this st' "set" args.

(** [handleReply]: on a match, run the registered callback (clear the
    timer, settle the promise), then delete the registration. *)
Definition handleReply (this : t) (st : State) (reply : Types.Reply) : t * State :=
  if String.eqb (Types.sourceId reply) (sourceId this)
     && String.eqb (Types.clientId reply) (clientId this)
  then
    match pendingRequests this !! Types.requestId reply with
    | Some callback =>
      ({| clientId := clientId this;
          this_logger := this_logger this;
          this_namespace := this_namespace this;
          pendingRequests := base.delete (Types.requestId reply) (pendingRequests this);
          sourceId := sourceId this |},
       {| isPrimary := isPrimary st;
          defaultConfig := defaultConfig st;
          idsDrawn := idsDrawn st;
          timers := base.delete (failsafeTimeout callback) (timers st);
          timersCreated := timersCreated st;
          promises :=
            settle (promises st) (promise callback)
              (if truthy (Types.error reply)
               then Rejected (Types.error reply)
               else Fulfilled (Types.data reply));
          canSend := canSend st;
          sent := sent st;
          warnings := warnings st;
          listeners := listeners st |})
    | None => (this, st)
    end
  else (this, st).

(** The failsafe timer [handle] comes due.  A timer that was cleared is
    not in the table and nothing runs.  Otherwise its callback runs:
    it builds the error from [operation], [requestId] and [this.clientId]
    and calls [reject], nothing else, so no client object changes. *)
Definition failsafeTimeout_fires (st : State) (handle : nat) : State :=
  match timers st !! handle with
  | None => st
  | Some timer =>
    {| isPrimary := isPrimary st;
       defaultConfig := defaultConfig st;
       idsDrawn := idsDrawn st;
       timers := base.delete handle (timers st);
       timersCreated := timersCreated st;
       promises :=
         settle (promises st) (timer_promise timer)
           (Rejected (VError "Error"
              (timeoutMessage (timer_operation timer) (timer_requestId timer)
                 (timer_clientId timer))));
       canSend := canSend st;
       sent := sent st;
       warnings := warnings st;
       listeners := listeners st |}
  end.

End WithIds.
End ClusterCacheClient.

(** * Properties *)

(** ** Strings *)

Section Strings.

Lemma append_cons (x : ascii) (a b : string) :
  String x a +:+ b = String x (a +:+ b).
Proof. reflexivity. Qed.

Lemma append_nil_l (b : string) : "" +:+ b = b.
Proof. reflexivity. Qed.

Lemma append_assoc (a b c : string) : (a +:+ b) +:+ c = a +:+ (b +:+ c).
Proof.
  induction a as [|x a IH]; [done |].
  rewrite !append_cons. by f_equal.
Qed.

Lemma length_append (a b : string) :
  String.length (a +:+ b) = (String.length a + String.length b)%nat.
Proof.
  induction a as [|x a IH]; [done |].
  rewrite append_cons. simpl. by rewrite IH.
Qed.

(** Appending the same tail is injective. *)
Lemma append_inv_tail (s a b : string) : a +:+ s = b +:+ s → a = b.
Proof.
  revert b. induction a as [|x a IH]; intros [|y b] Heq.
  - done.
  - apply (f_equal String.length) in Heq.
    rewrite append_nil_l, append_cons in Heq. simpl in Heq.
    rewrite length_append in Heq. lia.
  - apply (f_equal String.length) in Heq.
    rewrite append_nil_l, append_cons in Heq. simpl in Heq.
    rewrite length_append in Heq. lia.
  - rewrite !append_cons in Heq. injection Heq as -> Heq.
    f_equal. by apply IH.
Qed.

Lemma startsWith_append (p t : string) : startsWith (p +:+ t) p = true.
Proof.
  unfold startsWith. induction p as [|x p IH].
  - by destruct t.
  - rewrite append_cons. simpl.
    destruct (ascii_dec x x); [apply IH | done].
Qed.

Lemma startsWith_inv (s p : string) :
  startsWith s p = true → ∃ t, s = p +:+ t.
Proof.
  unfold startsWith. revert s. induction p as [|x p IH]; intros s Hp.
  - by exists s.
  - destruct s as [|y s]; simpl in Hp; [done |].
    destruct (ascii_dec x y) as [-> |]; [| done].
    destruct (IH _ Hp) as [t ->]. by exists t.
Qed.

Lemma contains_append (c : ascii) (a b : string) :
  contains c (a +:+ b) = contains c a || contains c b.
Proof.
  induction a as [|x a IH]; [done |].
  rewrite append_cons. simpl.
  destruct (Ascii.eqb x c); [done | apply IH].
Qed.

(** Two strings free of [c] that are followed by [c] in the same text are
    the same string: the first [c] marks where each of them ends. *)
Lemma split_at_first (c : ascii) (a b s t : string) :
  contains c a = false → contains c b = false →
  a +:+ String c s = b +:+ String c t → a = b ∧ s = t.
Proof.
  revert b. induction a as [|x a IH]; intros [|y b] Ha Hb Heq;
    rewrite ?append_cons, ?append_nil_l in Heq; simpl in Ha, Hb.
  - by injection Heq as ->.
  - injection Heq as <- _. by rewrite Ascii.eqb_refl in Hb.
  - injection Heq as -> _. by rewrite Ascii.eqb_refl in Ha.
  - injection Heq as -> Heq.
    destruct (Ascii.eqb y c); [done |].
    destruct (IH b Ha Hb Heq) as [-> ->]. done.
Qed.

End Strings.

(** ** The namespace key codec *)

Section Codec.

Lemma applyNamespace_unfold (ns : string) (k : option string) :
  ClusterCache.applyNamespace ns k = ns +:+ String ":" (default "" k).
Proof. reflexivity. Qed.

(** For one and the same key, distinct namespaces give distinct
    composite keys. *)
Lemma applyNamespace_inj_namespace (n1 n2 : string) (k : option string) :
  ClusterCache.applyNamespace n1 k = ClusterCache.applyNamespace n2 k → n1 = n2.
Proof. rewrite !applyNamespace_unfold. apply append_inv_tail. Qed.

(** X1: the codec is injective on namespaces that do not contain the
    separator: equal composite keys come from equal namespaces and equal
    keys. *)
Lemma applyNamespace_inj_separator_free (n1 n2 k1 k2 : string) :
  contains ":" n1 = false → contains ":" n2 = false →
  ClusterCache.applyNamespace n1 (Some k1) = ClusterCache.applyNamespace n2 (Some k2) →
  n1 = n2 ∧ k1 = k2.
Proof. rewrite !applyNamespace_unfold. apply split_at_first. Qed.

(** The prefix [clear] looks for matches every key of the namespace. *)
Lemma startsWith_own_namespace (ns : string) (k : option string) :
  startsWith (ClusterCache.applyNamespace ns k)
    (ClusterCache.applyNamespace ns (Some "")) = true.
Proof.
  rewrite !applyNamespace_unfold. simpl.
  replace (ns +:+ String ":" (default "" k))
    with ((ns +:+ ":") +:+ default "" k).
  - apply startsWith_append.
  - rewrite append_assoc. reflexivity.
Qed.

(** It matches no key of another namespace when neither namespace
    contains the separator. *)
Lemma startsWith_other_namespace (ns n2 : string) (k : option string) :
  contains ":" ns = false → contains ":" n2 = false → n2 ≠ ns →
  startsWith (ClusterCache.applyNamespace n2 k)
    (ClusterCache.applyNamespace ns (Some "")) = false.
Proof.
  intros Hns Hn2 Hne.
  destruct (startsWith _ _) eqn:Hp; [| done].
  apply startsWith_inv in Hp as [t Ht].
  rewrite !applyNamespace_unfold in Ht. simpl in Ht.
  rewrite append_assoc in Ht. rewrite append_cons, append_nil_l in Ht.
  destruct (split_at_first _ _ _ _ _ Hn2 Hns Ht) as [-> _]. done.
Qed.

Lemma append_inv_head (a s t : string) : a +:+ s = a +:+ t → s = t.
Proof.
  induction a as [|x a IH]; [done |].
  rewrite !append_cons. intros [= Heq]. by apply IH.
Qed.

(** X2: within one namespace, distinct keys have distinct composite
    keys, whatever characters namespace and keys contain. *)
Theorem applyNamespace_distinct_keys (ns k1 k2 : string) :
  k1 ≠ k2 →
  ClusterCache.applyNamespace ns (Some k1) ≠ ClusterCache.applyNamespace ns (Some k2).
Proof.
  intros Hne Heq. apply Hne. rewrite !applyNamespace_unfold in Heq.
  apply append_inv_head in Heq. by injection Heq.
Qed.

(** C3: the pairs (namespace [a], key [b:c]) and (namespace [a:b], key
    [c]) are distinct and have the same composite key, [a:b:c]. *)
Theorem applyNamespace_collision :
  ("a", "b:c") ≠ ("a:b", "c")
  ∧ ClusterCache.applyNamespace "a" (Some "b:c") = "a:b:c"
  ∧ ClusterCache.applyNamespace "a:b" (Some "c") = "a:b:c".
Proof. repeat split; done. Qed.

End Codec.

(** ** The coordinator *)

Section Coordinator.
Context `{store : LRUCache.Model}.

Implicit Types (this : ClusterCache.t) (args : Types.CacheFnArguments).

Lemma foldl_visit_lookup (prefix : string) (l : list (string * Value))
    (c : gmap string Value) (k : string) :
  foldl (ClusterCache.visit prefix) c l !! k =
  if startsWith k prefix && bool_decide (k ∈ l.*1) then None else c !! k.
Proof.
  revert c. induction l as [|[k' v] l IH]; intros c.
  - simpl. by rewrite andb_false_r.
  - cbn [foldl]. rewrite IH, fmap_cons. unfold ClusterCache.visit. cbn [fst].
    destruct (decide (k = k')) as [-> | Hne].
    + rewrite (bool_decide_eq_true_2 (k' ∈ k' :: l.*1)) by left.
      destruct (startsWith k' prefix) eqn:Hp; simpl.
      * rewrite lookup_delete_eq. by case_bool_decide.
      * done.
    + assert (bool_decide (k ∈ k' :: l.*1) = bool_decide (k ∈ l.*1)) as ->.
      { apply bool_decide_ext. rewrite elem_of_cons.
        split; [by intros [? | ?] | by right]. }
      assert ((if startsWith k' prefix then delete k' c else c) !! k = c !! k)
        as ->; [| done].
      destruct (startsWith k' prefix); [| done].
      by rewrite lookup_delete_ne.
Qed.

(** After [clear], a key is in the store exactly when it was there before
    and does not start with the namespace prefix. *)
Lemma clear_lookup this args (k : string) :
  ClusterCache.cache (ClusterCache.clear this args).2 !! k =
  if startsWith k (ClusterCache.applyNamespace (Types.namespace args) (Some ""))
  then None else ClusterCache.cache this !! k.
Proof.
  unfold ClusterCache.clear. simpl. rewrite foldl_visit_lookup.
  destruct (startsWith _ _); simpl; [| done].
  case_bool_decide as Hin; [done |].
  destruct (ClusterCache.cache this !! k) as [v|] eqn:Hk; [| done].
  exfalso. apply Hin. apply list_elem_of_fmap. exists (k, v). split; [done |].
  by apply elem_of_map_to_list.
Qed.

Lemma clear_returns_OK this args :
  (ClusterCache.clear this args).1 = Normal (VStr "OK").
Proof. reflexivity. Qed.

(** [clear] empties its own namespace. *)
Lemma clear_own_namespace this args (k : option string) :
  ClusterCache.cache (ClusterCache.clear this args).2
    !! ClusterCache.applyNamespace (Types.namespace args) k = None.
Proof. by rewrite clear_lookup, startsWith_own_namespace. Qed.

(** X3: [clear] leaves every key of another namespace as it was when
    neither namespace contains the separator. *)
Lemma clear_other_namespace this args (n2 : string) (k : option string) :
  contains ":" (Types.namespace args) = false → contains ":" n2 = false →
  n2 ≠ Types.namespace args →
  ClusterCache.cache (ClusterCache.clear this args).2
    !! ClusterCache.applyNamespace n2 k =
  ClusterCache.cache this !! ClusterCache.applyNamespace n2 k.
Proof.
  intros Hns Hn2 Hne.
  by rewrite clear_lookup, startsWith_other_namespace.
Qed.

(** *** Dispatch *)

Lemma getCacheFn_recognized (operation : Types.Methods) :
  ClusterCache.recognized operation = true →
  ∃ fn, ClusterCache.getCacheFn operation = Normal fn.
Proof.
  unfold ClusterCache.recognized. intros Hin%bool_decide_eq_true.
  repeat (apply elem_of_cons in Hin as [-> | Hin]; [by eexists |]).
  by apply elem_of_nil in Hin.
Qed.

Lemma getCacheFn_unrecognized (operation : Types.Methods) :
  ClusterCache.recognized operation = false →
  ClusterCache.getCacheFn operation =
  Throw (VError "TypeError"
    ("'" +:+ operation +:+ "' is not a recognized cluster cache operation.")).
Proof.
  unfold ClusterCache.recognized. intros Hin%bool_decide_eq_false.
  unfold ClusterCache.getCacheFn.
  destruct (String.eqb_spec operation "clear") as [-> | _];
    [exfalso; apply Hin; repeat constructor |].
  destruct (String.eqb_spec operation "delete") as [-> | _];
    [exfalso; apply Hin; repeat constructor |].
  destruct (String.eqb_spec operation "get") as [-> | _];
    [exfalso; apply Hin; repeat constructor |].
  destruct (String.eqb_spec operation "set") as [-> | _];
    [exfalso; apply Hin; repeat constructor |].
  done.
Qed.

(** For a recognized operation nothing escapes [handleRequest], and one
    reply goes to the worker that sent the request, carrying the
    request's three ids; a method that throws gives an [error] reply. *)
Lemma handleRequest_recognized this (worker : ClusterCache.Worker)
    (request : Types.Request) :
  ClusterCache.recognized (Types.operation request) = true →
  ∃ this' r,
    ClusterCache.handleRequest this worker request = (Normal (), this', [(worker, r)])
    ∧ Types.clientId r = Types.req_clientId request
    ∧ Types.requestId r = Types.req_requestId request
    ∧ Types.sourceId r = Types.req_sourceId request.
Proof.
  intros [fn Hfn]%getCacheFn_recognized.
  unfold ClusterCache.handleRequest. rewrite Hfn.
  destruct (ClusterCache.call fn this (Types.args request)) as [[data | e] this'];
    by eexists _, _.
Qed.

(** For any other operation the [TypeError] of [getCacheFn] escapes
    [handleRequest]: the call is made before the [try] block, and no
    reply is sent. *)
Lemma handleRequest_unrecognized this (worker : ClusterCache.Worker)
    (request : Types.Request) :
  ClusterCache.recognized (Types.operation request) = false →
  ClusterCache.handleRequest this worker request =
  (Throw (VError "TypeError"
     ("'" +:+ Types.operation request
      +:+ "' is not a recognized cluster cache operation.")),
   this, []).
Proof.
  intros Hop. unfold ClusterCache.handleRequest.
  by rewrite (getCacheFn_unrecognized _ Hop).
Qed.

(** C2: an operation outside the four names.  The [TypeError] thrown by
    [getCacheFn] is not caught by [handleRequest]: it is the completion of
    the call, the coordinator is unchanged and no reply is sent, for any
    store, worker and request ids. *)
Theorem handleRequest_unknown_operation_throws this
    (worker : ClusterCache.Worker) args (clientId requestId sourceId : string) :
  ClusterCache.handleRequest this worker
    {| Types.args := args; Types.req_clientId := clientId;
       Types.operation := "flush"; Types.req_requestId := requestId;
       Types.req_sourceId := sourceId |} =
  (Throw (VError "TypeError"
     "'flush' is not a recognized cluster cache operation."),
   this, []).
Proof. by rewrite handleRequest_unrecognized. Qed.

(** C4: [clear] of namespace [a] deletes the entry stored under key [c]
    of the other namespace [a:b], since its composite key [a:b:c] starts
    with [a:]; this for any store holding that entry. *)
Theorem clear_deletes_entry_of_other_namespace this (v : Value) :
  let stored :=
    ClusterCache.with_cache this
      (<[ClusterCache.applyNamespace "a:b" (Some "c") := v]>
         (ClusterCache.cache this)) in
  let cleared :=
    ClusterCache.clear stored
      {| Types.key := None; Types.namespace := "a"; Types.options := None;
         Types.value := VUndefined |} in
  "a:b" ≠ "a"
  ∧ ClusterCache.cache stored !! ClusterCache.applyNamespace "a:b" (Some "c") = Some v
  ∧ cleared.1 = Normal (VStr "OK")
  ∧ ClusterCache.cache cleared.2 !! ClusterCache.applyNamespace "a:b" (Some "c") = None.
Proof.
  intros stored cleared. split; [done |]. split; [apply lookup_insert_eq |].
  split; [done |]. unfold cleared. by rewrite clear_lookup.
Qed.

(** *** Set, then get under another namespace *)

Lemma set_lookup_other `{laws : !LRUCache.Laws} this args (k' : string) :
  k' ≠ ClusterCache.applyNamespace (Types.namespace args) (Types.key args) →
  ClusterCache.cache this !! k' = None →
  ClusterCache.cache (ClusterCache.set this args).2 !! k' = None.
Proof.
  intros Hne Hk. unfold ClusterCache.set.
  destruct (LRUCache.set _ _ _ _) as [e | c] eqn:Hset;
    [by destruct (toString e) | simpl].
  by eapply LRUCache.set_creates_nothing_else.
Qed.

(** C5: for distinct namespaces [n1] and [n2] and a key [k] with no entry
    under [n2], a [set] of [k] under [n1] (whether it stores the value or
    throws) followed by a [get] of [k] under [n2] returns [undefined], a
    miss. *)
Theorem set_then_get_other_namespace_misses `{laws : !LRUCache.Laws} this
    (n1 n2 k : string) (v : Value) (o1 o2 : option Types.Options) :
  n1 ≠ n2 →
  ClusterCache.cache this !! ClusterCache.applyNamespace n2 (Some k) = None →
  (ClusterCache.get
     (ClusterCache.set this
        {| Types.key := Some k; Types.namespace := n1; Types.options := o1;
           Types.value := v |}).2
     {| Types.key := Some k; Types.namespace := n2; Types.options := o2;
        Types.value := VUndefined |}).1
  = Normal VUndefined.
Proof.
  intros Hne Hmiss. unfold ClusterCache.get, LRUCache.get. simpl.
  rewrite set_lookup_other; [done | | done]. simpl.
  intros Heq%applyNamespace_inj_namespace. by apply Hne.
Qed.

(** *** The singleton *)

Lemma constructor_existing (st : ClusterCache.State) (r : nat)
    (options : LRUCache.Options) (logger : Logger) :
  ClusterCache.instance st = Some r →
  ClusterCache.constructor st options logger = (Normal r, st).
Proof. intros Hi. unfold ClusterCache.constructor. by rewrite Hi. Qed.

Lemma constructor_registers (st st' : ClusterCache.State) (r : nat)
    (options : LRUCache.Options) (logger : Logger) :
  ClusterCache.constructor st options logger = (Normal r, st') →
  ClusterCache.instance st' = Some r.
Proof.
  unfold ClusterCache.constructor.
  destruct (ClusterCache.instance st) as [r0 |] eqn:Hi.
  - by intros [= <- <-].
  - destruct (negb _); [done |].
    destruct (LRUCache.new options); [done |]. by intros [= <- <-].
Qed.

Lemma on_message_instance (st : ClusterCache.State)
    (worker : ClusterCache.Worker) (request : Types.Request) :
  ClusterCache.instance (ClusterCache.on_message st worker request).1.2
  = ClusterCache.instance st.
Proof.
  unfold ClusterCache.on_message.
  by destruct (ClusterCache.emit _ _ _ _) as [[r objs] out].
Qed.

Lemma on_messages_instance (st : ClusterCache.State)
    (msgs : list (ClusterCache.Worker * Types.Request)) :
  ClusterCache.instance (ClusterCache.on_messages st msgs)
  = ClusterCache.instance st.
Proof.
  revert st. induction msgs as [| m msgs IH]; intros st; [done |].
  unfold ClusterCache.on_messages in *. cbn [foldl].
  by rewrite IH, on_message_instance.
Qed.

(** C8: once a construction has returned an instance, a construction with
    any other options and logger, after any messages handled in between,
    returns the same instance and leaves the whole state of the class
    (the instance's options and its store among it) as it was. *)
Theorem second_construction_returns_instance (st st1 : ClusterCache.State)
    (r : nat) (options1 options2 : LRUCache.Options) (logger1 logger2 : Logger)
    (msgs : list (ClusterCache.Worker * Types.Request)) :
  ClusterCache.constructor st options1 logger1 = (Normal r, st1) →
  ClusterCache.constructor (ClusterCache.on_messages st1 msgs) options2 logger2
  = (Normal r, ClusterCache.on_messages st1 msgs).
Proof.
  intros Hfirst%constructor_registers.
  apply constructor_existing. by rewrite on_messages_instance.
Qed.

(** *** Further properties of the methods *)

Lemma with_cache_same this : ClusterCache.with_cache this (ClusterCache.cache this) = this.
Proof. by destruct this. Qed.

(** X5: [clear] adds nothing and alters nothing: the store afterwards is
    a part of the store before. *)
Theorem clear_survivors this args :
  ClusterCache.cache (ClusterCache.clear this args).2 ⊆ ClusterCache.cache this.
Proof.
  apply map_subseteq_spec. intros k v. rewrite clear_lookup.
  by destruct (startsWith _ _).
Qed.

(** X6: clearing a namespace twice leaves the coordinator as clearing it
    once does. *)
Theorem clear_idempotent this args :
  (ClusterCache.clear (ClusterCache.clear this args).2 args).2
  = (ClusterCache.clear this args).2.
Proof.
  assert (ClusterCache.cache (ClusterCache.clear (ClusterCache.clear this args).2 args).2
          = ClusterCache.cache (ClusterCache.clear this args).2) as Hcache.
  { apply map_eq. intros k. rewrite !clear_lookup. by destruct (startsWith _ _). }
  destruct this as [c l o sid]. unfold ClusterCache.clear, ClusterCache.with_cache in *.
  simpl in *. by rewrite Hcache.
Qed.

(** X7: [delete] returns [OK]; afterwards a [get] of the same key and
    namespace returns [undefined], and every other composite key has what
    it had. *)
Theorem delete_then_get_misses this args (o : option Types.Options) (v : Value) :
  (ClusterCache.delete this args).1 = Normal (VStr "OK")
  ∧ (ClusterCache.get (ClusterCache.delete this args).2
       {| Types.key := Types.key args; Types.namespace := Types.namespace args;
          Types.options := o; Types.value := v |}).1
    = Normal VUndefined
  ∧ ∀ k' : string,
      k' ≠ ClusterCache.applyNamespace (Types.namespace args) (Types.key args) →
      ClusterCache.cache (ClusterCache.delete this args).2 !! k'
      = ClusterCache.cache this !! k'.
Proof.
  split; [done |]. split.
  - unfold ClusterCache.get, LRUCache.get, ClusterCache.delete. simpl.
    by rewrite lookup_delete_eq.
  - intros k' Hne. unfold ClusterCache.delete. simpl.
    by rewrite lookup_delete_ne.
Qed.

(** X8: [delete] of a key that has no entry returns [OK] and leaves the
    coordinator as it was. *)
Theorem delete_absent_key this args :
  ClusterCache.cache this
    !! ClusterCache.applyNamespace (Types.namespace args) (Types.key args) = None →
  ClusterCache.delete this args = (Normal (VStr "OK"), this).
Proof.
  intros Habsent. unfold ClusterCache.delete.
  by rewrite delete_id, with_cache_same.
Qed.

Lemma call_keeps_configuration (fn : ClusterCache.CacheFn) this args :
  ClusterCache.options (ClusterCache.call fn this args).2 = ClusterCache.options this
  ∧ ClusterCache.logger (ClusterCache.call fn this args).2 = ClusterCache.logger this
  ∧ ClusterCache.sourceId (ClusterCache.call fn this args).2
    = ClusterCache.sourceId this.
Proof.
  destruct fn; simpl; try done.
  unfold ClusterCache.set.
  destruct (LRUCache.set _ _ _ _) as [e | c]; [| done].
  by destruct (toString e).
Qed.


(** X9: handling a request, whatever it asks for and however it
    completes, leaves the coordinator's options, logger and source id as
    they were; only the store can change. *)
Theorem handleRequest_keeps_configuration this (worker : ClusterCache.Worker)
    (request : Types.Request) :
  let this' := (ClusterCache.handleRequest this worker request).1.2 in
  ClusterCache.options this' = ClusterCache.options this
  ∧ ClusterCache.logger this' = ClusterCache.logger this
  ∧ ClusterCache.sourceId this' = ClusterCache.sourceId this.
Proof.
  unfold ClusterCache.handleRequest.
  destruct (ClusterCache.getCacheFn _) as [fn | e]; [| done].
  pose proof (call_keeps_configuration fn this (Types.args request)) as Hcall.
  by destruct (ClusterCache.call fn this (Types.args request)) as [[data | e] this'].
Qed.

(** X10: for each of the four operations, [handleRequest] completes
    normally and sends exactly one reply, to the worker the request came
    from; the reply has the request's client id, request id and source
    id, and not both [data] and [error]. *)
Theorem handleRequest_replies_once this (worker : ClusterCache.Worker)
    (request : Types.Request) :
  ClusterCache.recognized (Types.operation request) = true →
  ∃ this' r,
    ClusterCache.handleRequest this worker request = (Normal (), this', [(worker, r)])
    ∧ Types.clientId r = Types.req_clientId request
    ∧ Types.requestId r = Types.req_requestId request
    ∧ Types.sourceId r = Types.req_sourceId request
    ∧ (Types.error r = VUndefined ∨ Types.data r = VUndefined).
Proof.
  intros [fn Hfn]%getCacheFn_recognized.
  unfold ClusterCache.handleRequest. rewrite Hfn.
  destruct (ClusterCache.call fn this (Types.args request)) as [[data | e] this'];
    eexists _, _; repeat split; simpl; auto.
Qed.

(** X11: a [set] for which the store throws an [Error] object.  The
    coordinator is unchanged and sends the worker one reply, with no
    [data] and with an [Error] that names the composite key and carries
    the text of the store's error; through the channel that [Error]
    arrives as the empty object. *)
Theorem rejected_set_becomes_error_reply this (worker : ClusterCache.Worker)
    args (clientId requestId sourceId : string) (name message : string) :
  LRUCache.set (ClusterCache.cache this)
    (ClusterCache.applyNamespace (Types.namespace args) (Types.key args))
    (Types.value args) (Types.options args) = inl (VError name message) →
  let sent :=
    {| Types.clientId := clientId;
       Types.data := VUndefined;
       Types.error :=
         VError "Error"
           ("Failed to cache value for key "
            +:+ ClusterCache.applyNamespace (Types.namespace args) (Types.key args)
            +:+ ": " +:+ Error_toString name message);
       Types.requestId := requestId;
       Types.sourceId := sourceId |} in
  ClusterCache.handleRequest this worker
    {| Types.args := args; Types.req_clientId := clientId;
       Types.operation := "set"; Types.req_requestId := requestId;
       Types.req_sourceId := sourceId |}
  = (Normal (), this, [(worker, sent)])
  ∧ IPC.reply sent
    = {| Types.clientId := clientId; Types.data := VUndefined;
         Types.error := VObj []; Types.requestId := requestId;
         Types.sourceId := sourceId |}.
Proof.
  intros Hset sent. split; [| done].
  unfold ClusterCache.handleRequest. simpl.
  unfold ClusterCache.set. by rewrite Hset.
Qed.

(** *** At most one coordinator *)

Lemma emit_length (ls : list nat) (objs : list ClusterCache.t)
    (worker : ClusterCache.Worker) (request : Types.Request) :
  length (ClusterCache.emit ls objs worker request).1.2 = length objs.
Proof.
  revert objs. induction ls as [| this ls IH]; intros objs; [done |].
  simpl. destruct (objs !! this) as [obj |]; [| apply IH].
  destruct (ClusterCache.handleRequest obj worker request) as [[[[] | e] obj'] out].
  - specialize (IH (<[this := obj']> objs)).
    destruct (ClusterCache.emit ls _ worker request) as [[r objs'] out'].
    simpl in *. by rewrite IH, length_insert.
  - simpl. apply length_insert.
Qed.

Lemma single_step (st : ClusterCache.State) (ev : ClusterCache.Event) :
  ClusterCache.single st → ClusterCache.single (ClusterCache.step st ev).
Proof.
  intros Hst. destruct ev as [options logger | worker request]; simpl.
  - unfold ClusterCache.constructor.
    destruct Hst as [(Hi & Ho & Hl) | (Hi & Ho & Hl)]; rewrite Hi; [| by right].
    destruct (negb _); [by left |].
    destruct (LRUCache.new options); [by left |].
    right. simpl. by rewrite Ho, Hl.
  - unfold ClusterCache.on_message.
    pose proof (emit_length (ClusterCache.listeners st) (ClusterCache.objects st)
                  worker request) as Hlen.
    destruct (ClusterCache.emit _ _ _ _) as [[r objs] out]. simpl in *.
    destruct Hst as [(Hi & Ho & Hl) | (Hi & Ho & Hl)].
    + left. simpl. rewrite Ho in Hlen. by destruct objs.
    + right. simpl. by rewrite Hlen.
Qed.

(** X12: whatever constructions and messages a process goes through from
    its start, there is at most one coordinator object; when there is
    one, it is the static instance and its handler is subscribed to the
    ['message'] event exactly once. *)
Theorem run_single (isPrimary : bool) (evs : list ClusterCache.Event) :
  ClusterCache.single (ClusterCache.run (ClusterCache.start isPrimary) evs).
Proof.
  assert (∀ st, ClusterCache.single st → ClusterCache.single (ClusterCache.run st evs))
    as Hrun.
  { induction evs as [| ev evs IH]; intros st Hst; [done |].
    unfold ClusterCache.run in *. cbn [foldl]. by apply IH, single_step. }
  apply Hrun. by left.
Qed.

(** X13: in a process that is not the primary, no construction and no
    message ever changes the state of the class: no instance, no object,
    no listener. *)
Theorem run_worker_unchanged (evs : list ClusterCache.Event) :
  ClusterCache.run (ClusterCache.start false) evs = ClusterCache.start false.
Proof.
  induction evs as [| ev evs IH]; [done |].
  unfold ClusterCache.run in *. cbn [foldl].
  by destruct ev.
Qed.

End Coordinator.

(** ** The client proxy *)

Section Client.
Context `{ids : Uuid.Model}.

Implicit Types (this : ClusterCacheClient.t) (st : ClusterCacheClient.State).

Lemma settle_newest (ps : list ClusterCacheClient.PromiseState)
    (s : ClusterCacheClient.PromiseState) :
  ClusterCacheClient.settle (ps ++ [ClusterCacheClient.Pending]) (length ps) s
  = ps ++ [s].
Proof.
  unfold ClusterCacheClient.settle.
  rewrite list_lookup_middle by done.
  replace (length ps) with (length ps + 0)%nat by lia.
  by rewrite insert_app_r.
Qed.

Lemma settle_settled (ps : list ClusterCacheClient.PromiseState) (p : nat)
    (s : ClusterCacheClient.PromiseState) :
  ps !! p ≠ Some ClusterCacheClient.Pending →
  ClusterCacheClient.settle ps p s = ps.
Proof.
  intros Hp. unfold ClusterCacheClient.settle.
  by destruct (ps !! p) as [[| |] |].
Qed.

(** *** Timeout *)

(** C1: a request, then its failsafe timer coming due with no reply
    handled in between.  The promise is rejected with the timeout error,
    which names the request id and the client id; the callback stays
    registered under the request id in [pendingRequests], since the timer's
    callback does not touch the client. *)
Theorem timeout_leaves_request_registered this st
    (operation : Types.Methods) (args : Types.CacheFnArguments) :
  let requestId := Uuid.generateId (ClusterCacheClient.idsDrawn st) in
  let requested := ClusterCacheClient.request this st operation args in
  let p := requested.1.1 in
  let this' := requested.1.2 in
  let st' :=
    ClusterCacheClient.failsafeTimeout_fires requested.2
      (ClusterCacheClient.timersCreated st) in
  ClusterCacheClient.promises st' !! p =
    Some (ClusterCacheClient.Rejected (VError "Error"
      (ClusterCacheClient.timeoutMessage operation requestId
         (ClusterCacheClient.clientId this))))
  ∧ ClusterCacheClient.pendingRequests this' !! requestId =
    Some {| ClusterCacheClient.failsafeTimeout := ClusterCacheClient.timersCreated st;
            ClusterCacheClient.promise := p |}.
Proof.
  simpl. split.
  - unfold ClusterCacheClient.failsafeTimeout_fires. simpl.
    rewrite lookup_insert_eq. simpl. rewrite settle_newest.
    by apply list_lookup_middle.
  - apply lookup_insert_eq.
Qed.

(** A reply that arrives for a registered request id removes the
    registration, also when the timer has fired before. *)
Lemma handleReply_removes_registration this st (reply : Types.Reply) :
  Types.sourceId reply = ClusterCacheClient.sourceId this →
  Types.clientId reply = ClusterCacheClient.clientId this →
  is_Some (ClusterCacheClient.pendingRequests this !! Types.requestId reply) →
  ClusterCacheClient.pendingRequests
    (ClusterCacheClient.handleReply this st reply).1 !! Types.requestId reply
  = None.
Proof.
  intros Hs Hc [cb Hcb]. unfold ClusterCacheClient.handleReply.
  rewrite Hs, Hc, !String.eqb_refl, Hcb. simpl. apply lookup_delete_eq.
Qed.

(** X14: a reply for another source, another client or an unregistered
    request id changes neither the client nor the process state. *)
Lemma handleReply_ignores this st (reply : Types.Reply) :
  Types.sourceId reply ≠ ClusterCacheClient.sourceId this
  ∨ Types.clientId reply ≠ ClusterCacheClient.clientId this
  ∨ ClusterCacheClient.pendingRequests this !! Types.requestId reply = None →
  ClusterCacheClient.handleReply this st reply = (this, st).
Proof.
  unfold ClusterCacheClient.handleReply.
  intros [Hs | [Hc | Hr]].
  - by rewrite (proj2 (String.eqb_neq _ _) Hs).
  - rewrite (proj2 (String.eqb_neq _ _) Hc). by rewrite andb_false_r.
  - rewrite Hr. by destruct (_ && _).
Qed.

(** *** Request options *)

Lemma with_requestOptions_same (c : ClusterCacheClient.Config) :
  ClusterCacheClient.with_requestOptions c (ClusterCacheClient.requestOptions c) = c.
Proof. by destruct c. Qed.

(** Without overrides the arguments get the configured request options,
    and the state is as before. *)
Lemma addRequestOptions_no_overrides this st (args : Types.CacheFnArguments) :
  ClusterCacheClient.addRequestOptions this st args None =
  ({| Types.key := Types.key args; Types.namespace := Types.namespace args;
      Types.options :=
        Some (ClusterCacheClient.requestOptions (ClusterCacheClient.defaultConfig st));
      Types.value := Types.value args |}, st).
Proof.
  unfold ClusterCacheClient.addRequestOptions. simpl.
  unfold ClusterCacheClient.config. rewrite with_requestOptions_same.
  by destruct st.
Qed.

(** With overrides that are not allowed the arguments come back as they
    went in, and a warning is logged. *)
Lemma addRequestOptions_not_allowed this st (args : Types.CacheFnArguments)
    (overrides : Types.Options) :
  ClusterCacheClient.allowOverrides (ClusterCacheClient.defaultConfig st) = false →
  (ClusterCacheClient.addRequestOptions this st args (Some overrides)).1 = args
  ∧ ClusterCacheClient.warnings
      (ClusterCacheClient.addRequestOptions this st args (Some overrides)).2
    = ClusterCacheClient.warnings st
      ++ [(ClusterCacheClient.this_logger this, ClusterCacheClient.overridesWarning)]
  ∧ ClusterCacheClient.defaultConfig
      (ClusterCacheClient.addRequestOptions this st args (Some overrides)).2
    = ClusterCacheClient.defaultConfig st.
Proof.
  intros Hno. unfold ClusterCacheClient.addRequestOptions, ClusterCacheClient.config.
  by rewrite Hno.
Qed.

(** C6: overrides passed to [get] or [set] on a client whose
    configuration does not allow them.  A warning is logged, the
    configuration is unchanged and the request is sent, with no [options]
    in its arguments: neither the overrides nor the configured
    [requestOptions]. *)
Theorem disallowed_overrides_send_no_options this st (key : string)
    (value : Value) (overrides : Types.Options) :
  ClusterCacheClient.allowOverrides (ClusterCacheClient.defaultConfig st) = false →
  ClusterCacheClient.canSend st = true →
  let message operation value :=
    ClusterCacheClient.message this st operation
      {| Types.key := Some key;
         Types.namespace := ClusterCacheClient.this_namespace this;
         Types.options := None;
         Types.value := value |} in
  let warned :=
    ClusterCacheClient.warnings st
    ++ [(ClusterCacheClient.this_logger this, ClusterCacheClient.overridesWarning)] in
  let got := (ClusterCacheClient.get this st key (Some overrides)).2 in
  let put := (ClusterCacheClient.set this st key value (Some overrides)).2 in
  (ClusterCacheClient.warnings got = warned
   ∧ ClusterCacheClient.defaultConfig got = ClusterCacheClient.defaultConfig st
   ∧ ClusterCacheClient.sent got
     = ClusterCacheClient.sent st ++ [message "get" VUndefined])
  ∧ (ClusterCacheClient.warnings put = warned
     ∧ ClusterCacheClient.defaultConfig put = ClusterCacheClient.defaultConfig st
     ∧ ClusterCacheClient.sent put
       = ClusterCacheClient.sent st ++ [message "set" value]).
Proof.
  intros Hno Hsend. simpl.
  unfold ClusterCacheClient.get, ClusterCacheClient.set,
    ClusterCacheClient.addRequestOptions, ClusterCacheClient.config.
  rewrite Hno. simpl. by rewrite Hsend.
Qed.

(** The same call without overrides sends the configured request
    options. *)
Lemma get_without_overrides_sends_requestOptions this st (key : string) :
  ClusterCacheClient.canSend st = true →
  ClusterCacheClient.sent (ClusterCacheClient.get this st key None).2
  = ClusterCacheClient.sent st ++
    [ClusterCacheClient.message this st "get"
       {| Types.key := Some key;
          Types.namespace := ClusterCacheClient.this_namespace this;
          Types.options :=
            Some (ClusterCacheClient.requestOptions
                    (ClusterCacheClient.defaultConfig st));
          Types.value := VUndefined |}].
Proof.
  intros Hsend. unfold ClusterCacheClient.get.
  rewrite addRequestOptions_no_overrides. simpl. by rewrite Hsend.
Qed.

(** C7: overrides passed to [set] on a client whose configuration allows
    them are written into the configured [requestOptions], and a later
    [get] without overrides sends the merged options: whatever [ttl] or
    [size] the overrides gave is what that later request carries. *)
Theorem allowed_overrides_persist this st (key : string) (value : Value)
    (overrides : Types.Options) :
  ClusterCacheClient.allowOverrides (ClusterCacheClient.defaultConfig st) = true →
  ClusterCacheClient.canSend st = true →
  let merged :=
    Lodash.merge_options
      (ClusterCacheClient.requestOptions (ClusterCacheClient.defaultConfig st))
      (Some overrides) in
  let first := ClusterCacheClient.set this st key value (Some overrides) in
  let second := ClusterCacheClient.get first.1.2 first.2 key None in
  ClusterCacheClient.requestOptions (ClusterCacheClient.defaultConfig first.2) = merged
  ∧ (∃ rq, last (ClusterCacheClient.sent second.2) = Some rq
           ∧ Types.operation rq = "get"
           ∧ Types.options (Types.args rq) = Some merged)
  ∧ (∀ x, Types.ttl overrides = Some x → Types.ttl merged = Some x)
  ∧ (∀ x, Types.size overrides = Some x → Types.size merged = Some x).
Proof.
  intros Hyes Hsend merged first second.
  assert (ClusterCacheClient.requestOptions
            (ClusterCacheClient.defaultConfig first.2) = merged) as Hfirst.
  { unfold first, ClusterCacheClient.set, ClusterCacheClient.addRequestOptions,
      ClusterCacheClient.config. by rewrite Hyes. }
  assert (ClusterCacheClient.canSend first.2 = true) as Hsend1.
  { unfold first, ClusterCacheClient.set, ClusterCacheClient.addRequestOptions,
      ClusterCacheClient.config. by rewrite Hyes. }
  split; [done |]. split.
  - eexists. unfold second.
    rewrite get_without_overrides_sends_requestOptions by done.
    rewrite last_snoc, Hfirst. done.
  - split; intros x Hx; unfold merged; simpl; by rewrite Hx.
Qed.

(** *** The shared default configuration *)

Lemma merge_config_empty (c : ClusterCacheClient.Config) :
  ClusterCacheClient.merge_config c ClusterCacheClient.emptyConfig = c.
Proof. by destruct c. Qed.

Lemma constructor_worker st (c : option ClusterCacheClient.ConfigArgument) :
  ClusterCacheClient.isPrimary st = false →
  ∃ client st',
    ClusterCacheClient.constructor st c = (Normal client, st')
    ∧ ClusterCacheClient.isPrimary st' = false
    ∧ ClusterCacheClient.defaultConfig st' =
      ClusterCacheClient.merge_config (ClusterCacheClient.defaultConfig st)
        (default ClusterCacheClient.emptyConfig c)
    ∧ ClusterCacheClient.clientId client
      = Uuid.generateId (ClusterCacheClient.idsDrawn st)
    ∧ ClusterCacheClient.this_namespace client =
      (if String.eqb
            (ClusterCacheClient.namespace (ClusterCacheClient.defaultConfig st')) ""
       then ClusterCacheClient.clientId client
       else ClusterCacheClient.namespace (ClusterCacheClient.defaultConfig st')).
Proof.
  intros Hworker. unfold ClusterCacheClient.constructor. rewrite Hworker.
  by eexists _, _.
Qed.

(** C10: constructing a client with configuration [c] replaces the static
    [defaultConfig] by its merge with [c].  A client constructed
    afterwards with configuration [c2] (omitted or partial) has as its
    configuration the merge of that with [c2]: where [c2] gives no
    namespace, request timeout or request options, the client has those of
    the merge with [c]; with a non-empty namespace in [c], that namespace
    and not its own id. *)
Theorem constructor_merges_into_defaultConfig st
    (c : ClusterCacheClient.ConfigArgument)
    (c2 : option ClusterCacheClient.ConfigArgument) :
  ClusterCacheClient.isPrimary st = false →
  let merged :=
    ClusterCacheClient.merge_config (ClusterCacheClient.defaultConfig st) c in
  let given := default ClusterCacheClient.emptyConfig c2 in
  ∃ client1 st1 client2 st2,
    ClusterCacheClient.constructor st (Some c) = (Normal client1, st1)
    ∧ ClusterCacheClient.defaultConfig st1 = merged
    ∧ ClusterCacheClient.constructor st1 c2 = (Normal client2, st2)
    ∧ ClusterCacheClient.config st2 client2
      = ClusterCacheClient.merge_config merged given
    ∧ (c2 = None → ClusterCacheClient.config st2 client2 = merged)
    ∧ (ClusterCacheClient.arg_namespace given = None →
       ClusterCacheClient.namespace (ClusterCacheClient.config st2 client2)
       = ClusterCacheClient.namespace merged
       ∧ ∀ ns, ClusterCacheClient.arg_namespace c = Some ns → ns ≠ "" →
               ClusterCacheClient.this_namespace client2 = ns)
    ∧ (ClusterCacheClient.arg_requestTimeout given = None →
       ClusterCacheClient.requestTimeout (ClusterCacheClient.config st2 client2)
       = ClusterCacheClient.requestTimeout merged)
    ∧ (ClusterCacheClient.arg_requestOptions given = None →
       ClusterCacheClient.requestOptions (ClusterCacheClient.config st2 client2)
       = ClusterCacheClient.requestOptions merged).
Proof.
  intros Hworker merged given.
  destruct (constructor_worker st (Some c) Hworker)
    as (client1 & st1 & Hc1 & Hw1 & Hd1 & _ & _).
  destruct (constructor_worker st1 c2 Hw1)
    as (client2 & st2 & Hc2 & _ & Hd2 & _ & Hns2).
  exists client1, st1, client2, st2.
  unfold ClusterCacheClient.config. rewrite Hns2, Hd2, Hd1.
  subst merged given. set (given := default ClusterCacheClient.emptyConfig c2).
  split; [done |]. split; [done |]. split; [done |]. split; [done |].
  split; [| split; [| split]].
  - intros Hc. subst given. rewrite Hc. apply merge_config_empty.
  - intros Hg. simpl. rewrite Hg. simpl. split; [done |].
    intros ns Hns Hne. rewrite Hns. simpl.
    by rewrite (proj2 (String.eqb_neq _ _) Hne).
  - intros Hg. simpl. by rewrite Hg.
  - intros Hg. simpl. by rewrite Hg.
Qed.

(** *** Replies and timers *)

Lemma settle_newest_settled (ps : list ClusterCacheClient.PromiseState)
    (reason : Value) (s : ClusterCacheClient.PromiseState) :
  ClusterCacheClient.settle (ps ++ [ClusterCacheClient.Rejected reason]) (length ps) s
  = ps ++ [ClusterCacheClient.Rejected reason].
Proof. apply settle_settled. by rewrite list_lookup_middle. Qed.

(** What a matching reply does, in one equation. *)
Lemma handleReply_matching this st (reply : Types.Reply)
    (callback : ClusterCacheClient.PendingRequest) :
  Types.sourceId reply = ClusterCacheClient.sourceId this →
  Types.clientId reply = ClusterCacheClient.clientId this →
  ClusterCacheClient.pendingRequests this !! Types.requestId reply = Some callback →
  ClusterCacheClient.handleReply this st reply =
  ({| ClusterCacheClient.clientId := ClusterCacheClient.clientId this;
      ClusterCacheClient.this_logger := ClusterCacheClient.this_logger this;
      ClusterCacheClient.this_namespace := ClusterCacheClient.this_namespace this;
      ClusterCacheClient.pendingRequests :=
        delete (Types.requestId reply) (ClusterCacheClient.pendingRequests this);
      ClusterCacheClient.sourceId := ClusterCacheClient.sourceId this |},
   {| ClusterCacheClient.isPrimary := ClusterCacheClient.isPrimary st;
      ClusterCacheClient.defaultConfig := ClusterCacheClient.defaultConfig st;
      ClusterCacheClient.idsDrawn := ClusterCacheClient.idsDrawn st;
      ClusterCacheClient.timers :=
        delete (ClusterCacheClient.failsafeTimeout callback)
          (ClusterCacheClient.timers st);
      ClusterCacheClient.timersCreated := ClusterCacheClient.timersCreated st;
      ClusterCacheClient.promises :=
        ClusterCacheClient.settle (ClusterCacheClient.promises st)
          (ClusterCacheClient.promise callback)
          (if truthy (Types.error reply)
           then ClusterCacheClient.Rejected (Types.error reply)
           else ClusterCacheClient.Fulfilled (Types.data reply));
      ClusterCacheClient.canSend := ClusterCacheClient.canSend st;
      ClusterCacheClient.sent := ClusterCacheClient.sent st;
      ClusterCacheClient.warnings := ClusterCacheClient.warnings st;
      ClusterCacheClient.listeners := ClusterCacheClient.listeners st |}).
Proof.
  intros Hs Hc Hcb. unfold ClusterCacheClient.handleReply.
  by rewrite Hs, Hc, !String.eqb_refl, Hcb.
Qed.

(** X15: a request, then the reply to it before the timer fires.  The
    promise is fulfilled with the reply's [data] when its [error] is
    falsy and rejected with the [error] otherwise; the registration is
    removed; the timer is cleared, so its coming due changes nothing. *)
Theorem reply_settles_request this st (operation : Types.Methods)
    (args : Types.CacheFnArguments) (data error : Value) :
  let requestId := Uuid.generateId (ClusterCacheClient.idsDrawn st) in
  let requested := ClusterCacheClient.request this st operation args in
  let replied :=
    ClusterCacheClient.handleReply requested.1.2 requested.2
      {| Types.clientId := ClusterCacheClient.clientId this;
         Types.data := data; Types.error := error;
         Types.requestId := requestId;
         Types.sourceId := ClusterCacheClient.sourceId this |} in
  ClusterCacheClient.promises replied.2 !! requested.1.1
    = Some (if truthy error then ClusterCacheClient.Rejected error
            else ClusterCacheClient.Fulfilled data)
  ∧ ClusterCacheClient.pendingRequests replied.1 !! requestId = None
  ∧ ClusterCacheClient.failsafeTimeout_fires replied.2
      (ClusterCacheClient.timersCreated st) = replied.2.
Proof.
  unfold ClusterCacheClient.handleReply, ClusterCacheClient.request. simpl.
  rewrite !String.eqb_refl, lookup_insert_eq. simpl.
  rewrite settle_newest. split; [by apply list_lookup_middle |].
  split; [apply lookup_delete_eq |].
  unfold ClusterCacheClient.failsafeTimeout_fires. simpl.
  by rewrite lookup_delete_eq.
Qed.

(** X16: a request, its timer coming due, and then a late reply to it.
    The late reply removes the registration and leaves the promise
    rejected with the timeout error: the reply's data or error is not
    seen. *)
Theorem late_reply_unregisters this st (operation : Types.Methods)
    (args : Types.CacheFnArguments) (data error : Value) :
  let requestId := Uuid.generateId (ClusterCacheClient.idsDrawn st) in
  let requested := ClusterCacheClient.request this st operation args in
  let timed_out :=
    ClusterCacheClient.failsafeTimeout_fires requested.2
      (ClusterCacheClient.timersCreated st) in
  let replied :=
    ClusterCacheClient.handleReply requested.1.2 timed_out
      {| Types.clientId := ClusterCacheClient.clientId this;
         Types.data := data; Types.error := error;
         Types.requestId := requestId;
         Types.sourceId := ClusterCacheClient.sourceId this |} in
  ClusterCacheClient.promises replied.2 !! requested.1.1
    = Some (ClusterCacheClient.Rejected (VError "Error"
        (ClusterCacheClient.timeoutMessage operation requestId
           (ClusterCacheClient.clientId this))))
  ∧ ClusterCacheClient.pendingRequests replied.1 !! requestId = None.
Proof.
  unfold ClusterCacheClient.handleReply, ClusterCacheClient.failsafeTimeout_fires,
    ClusterCacheClient.request. simpl.
  rewrite !String.eqb_refl, !lookup_insert_eq. simpl.
  rewrite settle_newest, settle_newest_settled.
  split; [by apply list_lookup_middle | apply lookup_delete_eq].
Qed.

(** X17: handling the same reply a second time changes nothing: a
    duplicate of a reply finds no registration. *)
Theorem handleReply_idempotent this st (reply : Types.Reply) :
  let once := ClusterCacheClient.handleReply this st reply in
  ClusterCacheClient.handleReply once.1 once.2 reply = once.
Proof.
  destruct (String.eqb (Types.sourceId reply) (ClusterCacheClient.sourceId this)
            && String.eqb (Types.clientId reply) (ClusterCacheClient.clientId this))
    eqn:Hids;
    [destruct (ClusterCacheClient.pendingRequests this !! Types.requestId reply)
       as [cb |] eqn:Hcb |];
    unfold ClusterCacheClient.handleReply.
  - rewrite Hids, Hcb. simpl. by rewrite Hids, lookup_delete_eq.
  - rewrite Hids, Hcb. simpl. by rewrite Hids, Hcb.
  - rewrite Hids. simpl. by rewrite Hids.
Qed.

(** X18: two requests in a row whose ids differ are both registered,
    each with its own promise and timer; the reply to the second settles
    the second only: the first stays registered, its promise pending and
    its timer running. *)
Theorem requests_are_independent this st (operation1 operation2 : Types.Methods)
    (args1 args2 : Types.CacheFnArguments) (data : Value) :
  let id1 := Uuid.generateId (ClusterCacheClient.idsDrawn st) in
  let id2 := Uuid.generateId (S (ClusterCacheClient.idsDrawn st)) in
  let first := ClusterCacheClient.request this st operation1 args1 in
  let second := ClusterCacheClient.request first.1.2 first.2 operation2 args2 in
  let replied :=
    ClusterCacheClient.handleReply second.1.2 second.2
      {| Types.clientId := ClusterCacheClient.clientId this;
         Types.data := data; Types.error := VUndefined;
         Types.requestId := id2;
         Types.sourceId := ClusterCacheClient.sourceId this |} in
  id1 ≠ id2 →
  first.1.1 ≠ second.1.1
  ∧ is_Some (ClusterCacheClient.pendingRequests second.1.2 !! id1)
  ∧ is_Some (ClusterCacheClient.pendingRequests second.1.2 !! id2)
  ∧ ClusterCacheClient.promises replied.2 !! second.1.1
    = Some (ClusterCacheClient.Fulfilled data)
  ∧ ClusterCacheClient.promises replied.2 !! first.1.1
    = Some ClusterCacheClient.Pending
  ∧ ClusterCacheClient.pendingRequests replied.1 !! id1
    = Some {| ClusterCacheClient.failsafeTimeout := ClusterCacheClient.timersCreated st;
              ClusterCacheClient.promise := first.1.1 |}
  ∧ ClusterCacheClient.pendingRequests replied.1 !! id2 = None
  ∧ is_Some (ClusterCacheClient.timers replied.2
               !! ClusterCacheClient.timersCreated st).
Proof.
  intros id1 id2 first second replied Hne.
  subst replied second first id1 id2. unfold ClusterCacheClient.request. simpl.
  erewrite handleReply_matching; [| done | done | apply lookup_insert_eq]. simpl.
  rewrite settle_newest.
  split; [rewrite length_app; simpl; lia |].
  split; [rewrite lookup_insert_ne by done; rewrite lookup_insert_eq; by eexists |].
  split; [rewrite lookup_insert_eq; by eexists |].
  split; [by apply list_lookup_middle |].
  split.
  { rewrite lookup_app_l by (rewrite length_app; simpl; lia).
    by apply list_lookup_middle. }
  split.
  { rewrite lookup_delete_ne by done. rewrite lookup_insert_ne by done.
    apply lookup_insert_eq. }
  split; [apply lookup_delete_eq |].
  rewrite lookup_delete_ne by lia. rewrite lookup_insert_ne by lia.
  rewrite lookup_insert_eq. by eexists.
Qed.

(** X19: in a process without [process.send], a request sends nothing
    and still registers its callback and starts its timer; the promise
    stays pending until the timer rejects it. *)
Theorem request_without_channel this st (operation : Types.Methods)
    (args : Types.CacheFnArguments) :
  ClusterCacheClient.canSend st = false →
  let requestId := Uuid.generateId (ClusterCacheClient.idsDrawn st) in
  let requested := ClusterCacheClient.request this st operation args in
  let timed_out :=
    ClusterCacheClient.failsafeTimeout_fires requested.2
      (ClusterCacheClient.timersCreated st) in
  ClusterCacheClient.sent requested.2 = ClusterCacheClient.sent st
  ∧ is_Some (ClusterCacheClient.pendingRequests requested.1.2 !! requestId)
  ∧ ClusterCacheClient.promises requested.2 !! requested.1.1
    = Some ClusterCacheClient.Pending
  ∧ ClusterCacheClient.sent timed_out = ClusterCacheClient.sent st
  ∧ ClusterCacheClient.promises timed_out !! requested.1.1
    = Some (ClusterCacheClient.Rejected (VError "Error"
        (ClusterCacheClient.timeoutMessage operation requestId
           (ClusterCacheClient.clientId this)))).
Proof.
  intros Hno. unfold ClusterCacheClient.failsafeTimeout_fires,
    ClusterCacheClient.request. simpl.
  rewrite Hno, !lookup_insert_eq. simpl. rewrite settle_newest.
  split; [done |]. split; [by eexists |].
  split; [by apply list_lookup_middle |].
  split; [done | by apply list_lookup_middle].
Qed.

(** X20: a [get] or [set] without overrides logs no warning and leaves
    the static configuration as it was, whether or not overrides are
    allowed; the request it sends carries the configured request
    options. *)
Theorem calls_without_overrides_keep_configuration this st (key : string)
    (value : Value) :
  let got := (ClusterCacheClient.get this st key None).2 in
  let put := (ClusterCacheClient.set this st key value None).2 in
  let configured :=
    ClusterCacheClient.requestOptions (ClusterCacheClient.defaultConfig st) in
  (ClusterCacheClient.defaultConfig got = ClusterCacheClient.defaultConfig st
   ∧ ClusterCacheClient.warnings got = ClusterCacheClient.warnings st
   ∧ (ClusterCacheClient.canSend st = true →
      Types.options ∘ Types.args <$> last (ClusterCacheClient.sent got)
      = Some (Some configured)))
  ∧ (ClusterCacheClient.defaultConfig put = ClusterCacheClient.defaultConfig st
     ∧ ClusterCacheClient.warnings put = ClusterCacheClient.warnings st
     ∧ (ClusterCacheClient.canSend st = true →
        Types.options ∘ Types.args <$> last (ClusterCacheClient.sent put)
        = Some (Some configured))).
Proof.
  unfold ClusterCacheClient.get, ClusterCacheClient.set.
  rewrite !addRequestOptions_no_overrides. simpl.
  split; (split; [done |]; split; [done |]);
    intros Hsend; rewrite Hsend; by rewrite last_snoc.
Qed.

(** X21: in a worker whose default namespace is empty, two clients
    constructed one after the other with no namespace in their
    configurations each get their own id as namespace; with distinct ids
    the namespaces are distinct. *)
Theorem default_namespaces_are_private st
    (c1 c2 : option ClusterCacheClient.ConfigArgument) :
  ClusterCacheClient.isPrimary st = false →
  ClusterCacheClient.namespace (ClusterCacheClient.defaultConfig st) = "" →
  ClusterCacheClient.arg_namespace (default ClusterCacheClient.emptyConfig c1) = None →
  ClusterCacheClient.arg_namespace (default ClusterCacheClient.emptyConfig c2) = None →
  Uuid.generateId (ClusterCacheClient.idsDrawn st)
    ≠ Uuid.generateId (S (ClusterCacheClient.idsDrawn st)) →
  ∃ client1 st1 client2 st2,
    ClusterCacheClient.constructor st c1 = (Normal client1, st1)
    ∧ ClusterCacheClient.constructor st1 c2 = (Normal client2, st2)
    ∧ ClusterCacheClient.this_namespace client1 = ClusterCacheClient.clientId client1
    ∧ ClusterCacheClient.this_namespace client2 = ClusterCacheClient.clientId client2
    ∧ ClusterCacheClient.this_namespace client1
      ≠ ClusterCacheClient.this_namespace client2.
Proof.
  intros Hworker Hns Hc1 Hc2 Hids.
  unfold ClusterCacheClient.constructor. rewrite Hworker.
  eexists _, _, _, _. split; [reflexivity |].
  simpl. split; [reflexivity |].
  simpl. rewrite Hc1, Hc2. simpl. rewrite Hns. simpl.
  by repeat split.
Qed.

End Client.

(** ** Process roles *)

Section Roles.
Context `{store : LRUCache.Model} `{ids : Uuid.Model}.

(** C9: a first construction of the coordinator in a process that is not
    the primary throws, and so does a construction of a client in the
    primary process; each leaves the state of its class as it was. *)
Theorem construction_in_wrong_role_throws
    (cst : ClusterCache.State) (options : LRUCache.Options) (logger : Logger)
    (wst : ClusterCacheClient.State)
    (config : option ClusterCacheClient.ConfigArgument) :
  ClusterCache.instance cst = None →
  ClusterCache.isPrimary cst = false →
  ClusterCacheClient.isPrimary wst = true →
  ClusterCache.constructor cst options logger =
    (Throw (VError "Error"
       "A shared cache may only be initialized on the primary process."), cst)
  ∧ ClusterCacheClient.constructor wst config =
    (Throw (VError "Error"
       "Cluster cache client may not be initialized in the cluster's primary process."),
     wst).
Proof.
  intros Hnone Hworker Hprimary. split.
  - unfold ClusterCache.constructor. by rewrite Hnone, Hworker.
  - unfold ClusterCacheClient.constructor. by rewrite Hprimary.
Qed.

End Roles.

(** ** Client and coordinator together *)

Section Protocol.
Context `{store : LRUCache.Model} `{ids : Uuid.Model}.

Implicit Types (coordinator : ClusterCache.t) (this : ClusterCacheClient.t)
  (st : ClusterCacheClient.State).


(** X23: a client's [delete] of a key, handled by a coordinator and
    answered.  Whatever the store held, the promise is fulfilled with
    [OK], and the store has no entry for the key under the client's
    namespace. *)
Theorem client_delete_round_trip coordinator (worker : ClusterCache.Worker)
    this st (key : string) :
  let deleted := ClusterCacheClient.delete this st key in
  let msg :=
    ClusterCacheClient.message this st "delete"
      {| Types.key := Some key;
         Types.namespace := ClusterCacheClient.this_namespace this;
         Types.options := None; Types.value := VUndefined |} in
  let handled := ClusterCache.handleRequest coordinator worker msg in
  (ClusterCacheClient.canSend st = true →
   last (ClusterCacheClient.sent deleted.2) = Some msg)
  ∧ ∃ r,
      handled = (Normal (), handled.1.2, [(worker, r)])
      ∧ ClusterCacheClient.promises
          (ClusterCacheClient.handleReply deleted.1.2 deleted.2 r).2 !! deleted.1.1
        = Some (ClusterCacheClient.Fulfilled (VStr "OK"))
      ∧ ClusterCache.cache handled.1.2
          !! ClusterCache.applyNamespace (ClusterCacheClient.this_namespace this)
               (Some key)
        = None.
Proof.
  intros deleted msg handled.
  subst deleted msg handled.
  unfold ClusterCacheClient.delete, ClusterCacheClient.request. simpl.
  split; [intros Hsend; rewrite Hsend; apply last_snoc |].
  eexists. split; [reflexivity |].
  erewrite handleReply_matching; [| done | done | apply lookup_insert_eq].
  simpl. rewrite settle_newest.
  split; [by apply list_lookup_middle | apply lookup_delete_eq].
Qed.

(** X24: a client's [clear], sent over the channel, handled by a
    coordinator and answered over the channel.  The promise is fulfilled
    with [OK], and the coordinator's store afterwards holds nothing it
    did not hold before. *)
Theorem client_clear_round_trip coordinator (worker : ClusterCache.Worker)
    this st :
  let cleared := ClusterCacheClient.clear this st in
  let msg :=
    ClusterCacheClient.message this st "clear"
      {| Types.key := None;
         Types.namespace := ClusterCacheClient.this_namespace this;
         Types.options := None; Types.value := VUndefined |} in
  let handled := ClusterCache.handleRequest coordinator worker (IPC.request msg) in
  (ClusterCacheClient.canSend st = true →
   last (ClusterCacheClient.sent cleared.2) = Some msg)
  ∧ ∃ r,
      handled = (Normal (), handled.1.2, [(worker, r)])
      ∧ ClusterCacheClient.promises
          (ClusterCacheClient.handleReply cleared.1.2 cleared.2 (IPC.reply r)).2
          !! cleared.1.1
        = Some (ClusterCacheClient.Fulfilled (VStr "OK"))
      ∧ ClusterCache.cache handled.1.2 ⊆ ClusterCache.cache coordinator.
Proof.
  intros cleared msg handled.
  assert (ClusterCache.cache handled.1.2 ⊆ ClusterCache.cache coordinator) as Hsub.
  { apply map_subseteq_spec. intros k v.
    pose proof (clear_lookup coordinator (Types.args (IPC.request msg)) k) as Hk.
    intros Hv. change (ClusterCache.cache handled.1.2 !! k)
      with (ClusterCache.cache
              (ClusterCache.clear coordinator (Types.args (IPC.request msg))).2 !! k)
      in Hv.
    rewrite Hk in Hv. by destruct (startsWith _ _). }
  subst cleared msg handled.
  unfold ClusterCacheClient.clear, ClusterCacheClient.request. simpl.
  split; [intros Hsend; rewrite Hsend; apply last_snoc |].
  eexists. split; [reflexivity |].
  erewrite handleReply_matching; [| done | done | apply lookup_insert_eq].
  simpl. rewrite settle_newest.
  split; [by apply list_lookup_middle | apply Hsub].
Qed.

End Protocol.

(** ** The theorems at concrete processes *)

(** The unbounded store keeps the contract of [set]. *)
Lemma unbounded_laws : @LRUCache.Laws LRUCache.unbounded.
Proof.
  constructor. intros c c' k v o k' [= <-] Hne Hnone.
  by rewrite lookup_insert_ne.
Qed.

Lemma set_then_get_other_namespace_misses_witness :
  let this :=
    {| ClusterCache.cache := ∅; ClusterCache.logger := console;
       ClusterCache.options :=
         {| LRUCache.max := Some 5000; LRUCache.maxSize := None;
            LRUCache.ttl := Some 300000 |};
       ClusterCache.sourceId := "cluster-cache" |} in
  "users" ≠ "orders"
  ∧ ClusterCache.cache this !! ClusterCache.applyNamespace "orders" (Some "42") = None
  ∧ (ClusterCache.get
       (ClusterCache.set (store := LRUCache.unbounded) this
          {| Types.key := Some "42"; Types.namespace := "users";
             Types.options := None; Types.value := VStr "Ada" |}).2
       {| Types.key := Some "42"; Types.namespace := "orders";
          Types.options := None; Types.value := VUndefined |}).1
    = Normal VUndefined.
Proof.
  intros this.
  split; [discriminate |]. split; [reflexivity |].
  apply (set_then_get_other_namespace_misses (store := LRUCache.unbounded)
           (laws := unbounded_laws) this "users" "orders" "42" (VStr "Ada")
           None None); [discriminate | reflexivity].
Defined.

Lemma second_construction_returns_instance_witness :
  let options1 :=
    {| LRUCache.max := Some 5000; LRUCache.maxSize := None;
       LRUCache.ttl := Some 300000 |} in
  let options2 :=
    {| LRUCache.max := Some 1; LRUCache.maxSize := None; LRUCache.ttl := None |} in
  let st1 :=
    (ClusterCache.constructor (store := LRUCache.unbounded)
       (ClusterCache.start true) options1 console).2 in
  let msgs :=
    [(7%nat,
      {| Types.args :=
           {| Types.key := Some "42"; Types.namespace := "users";
              Types.options := None; Types.value := VStr "Ada" |};
         Types.req_clientId := "client"; Types.operation := "set";
         Types.req_requestId := "request"; Types.req_sourceId := "cluster-cache" |})] in
  ClusterCache.constructor (store := LRUCache.unbounded)
    (ClusterCache.start true) options1 console = (Normal 0%nat, st1)
  ∧ ClusterCache.constructor (store := LRUCache.unbounded)
      (ClusterCache.on_messages (store := LRUCache.unbounded) st1 msgs)
      options2 (customLogger "quiet")
    = (Normal 0%nat,
       ClusterCache.on_messages (store := LRUCache.unbounded) st1 msgs).
Proof.
  intros options1 options2 st1 msgs. split; [reflexivity |].
  apply (second_construction_returns_instance (store := LRUCache.unbounded)
           (ClusterCache.start true) st1 0%nat options1 options2 console
           (customLogger "quiet") msgs).
  reflexivity.
Defined.

(** In that process the instance still has the first options after the
    second construction, and its store holds what the message stored. *)
Example second_construction_keeps_options_and_store :
  let options1 :=
    {| LRUCache.max := Some 5000; LRUCache.maxSize := None;
       LRUCache.ttl := Some 300000 |} in
  let options2 :=
    {| LRUCache.max := Some 1; LRUCache.maxSize := None; LRUCache.ttl := None |} in
  let st1 :=
    (ClusterCache.constructor (store := LRUCache.unbounded)
       (ClusterCache.start true) options1 console).2 in
  let st2 :=
    (ClusterCache.on_message (store := LRUCache.unbounded) st1 7%nat
       {| Types.args :=
            {| Types.key := Some "42"; Types.namespace := "users";
               Types.options := None; Types.value := VStr "Ada" |};
          Types.req_clientId := "client"; Types.operation := "set";
          Types.req_requestId := "request";
          Types.req_sourceId := "cluster-cache" |}).1.2 in
  let st3 :=
    (ClusterCache.constructor (store := LRUCache.unbounded) st2 options2
       (customLogger "quiet")).2 in
  (ClusterCache.options <$> ClusterCache.objects st3 !! 0%nat) = Some options1
  ∧ (ClusterCache.logger <$> ClusterCache.objects st3 !! 0%nat) = Some console
  ∧ ((λ o, ClusterCache.cache o !! "users:42") <$> ClusterCache.objects st3 !! 0%nat)
    = Some (Some (VStr "Ada")).
Proof. repeat split; reflexivity. Qed.

Lemma construction_in_wrong_role_throws_witness :
  let options :=
    {| LRUCache.max := Some 5000; LRUCache.maxSize := None;
       LRUCache.ttl := Some 300000 |} in
  ClusterCache.instance (ClusterCache.start false) = None
  ∧ ClusterCache.isPrimary (ClusterCache.start false) = false
  ∧ ClusterCacheClient.isPrimary (ClusterCacheClient.start true) = true
  ∧ ClusterCache.constructor (store := LRUCache.unbounded)
      (ClusterCache.start false) options console =
    (Throw (VError "Error"
       "A shared cache may only be initialized on the primary process."),
     ClusterCache.start false)
  ∧ ClusterCacheClient.constructor (ids := Uuid.counting)
      (ClusterCacheClient.start true) None =
    (Throw (VError "Error"
       "Cluster cache client may not be initialized in the cluster's primary process."),
     ClusterCacheClient.start true).
Proof.
  intros options.
  split; [reflexivity |]. split; [reflexivity |]. split; [reflexivity |].
  apply (construction_in_wrong_role_throws (store := LRUCache.unbounded)
           (ids := Uuid.counting) (ClusterCache.start false) options console
           (ClusterCacheClient.start true) None); reflexivity.
Defined.

Lemma disallowed_overrides_send_no_options_witness :
  let this :=
    {| ClusterCacheClient.clientId := "id-0";
       ClusterCacheClient.this_logger := console;
       ClusterCacheClient.this_namespace := "id-0";
       ClusterCacheClient.pendingRequests := ∅;
       ClusterCacheClient.sourceId := "cluster-cache" |} in
  let st :=
    (ClusterCacheClient.constructor (ids := Uuid.counting)
       (ClusterCacheClient.start false) None).2 in
  let overrides :=
    {| Types.allowStale := Some true; Types.ttl := Some 1;
       Types.updateAgeOnGet := None; Types.size := None |} in
  let message operation value :=
    {| Types.args :=
         {| Types.key := Some "42"; Types.namespace := "id-0";
            Types.options := None; Types.value := value |};
       Types.req_clientId := "id-0";
       Types.operation := operation;
       Types.req_requestId := "id-1";
       Types.req_sourceId := "cluster-cache" |} in
  let got :=
    (ClusterCacheClient.get (ids := Uuid.counting) this st "42" (Some overrides)).2 in
  let put :=
    (ClusterCacheClient.set (ids := Uuid.counting) this st "42" (VStr "Ada")
       (Some overrides)).2 in
  ClusterCacheClient.constructor (ids := Uuid.counting)
    (ClusterCacheClient.start false) None = (Normal this, st)
  ∧ ClusterCacheClient.allowOverrides (ClusterCacheClient.defaultConfig st) = false
  ∧ ClusterCacheClient.canSend st = true
  ∧ (ClusterCacheClient.warnings got = [(console, ClusterCacheClient.overridesWarning)]
     ∧ ClusterCacheClient.defaultConfig got = ClusterCacheClient.defaultConfig st
     ∧ ClusterCacheClient.sent got = [message "get" VUndefined])
  ∧ (ClusterCacheClient.warnings put = [(console, ClusterCacheClient.overridesWarning)]
     ∧ ClusterCacheClient.defaultConfig put = ClusterCacheClient.defaultConfig st
     ∧ ClusterCacheClient.sent put = [message "set" (VStr "Ada")]).
Proof.
  intros this st overrides message got put.
  split; [reflexivity |]. split; [reflexivity |]. split; [reflexivity |].
  apply (disallowed_overrides_send_no_options (ids := Uuid.counting) this st
           "42" (VStr "Ada") overrides); reflexivity.
Defined.

Lemma allowed_overrides_persist_witness :
  let this :=
    {| ClusterCacheClient.clientId := "id-0";
       ClusterCacheClient.this_logger := console;
       ClusterCacheClient.this_namespace := "users";
       ClusterCacheClient.pendingRequests := ∅;
       ClusterCacheClient.sourceId := "cluster-cache" |} in
  let st :=
    (ClusterCacheClient.constructor (ids := Uuid.counting)
       (ClusterCacheClient.start false)
       (Some {| ClusterCacheClient.arg_allowOverrides := Some true;
                ClusterCacheClient.arg_logger := None;
                ClusterCacheClient.arg_namespace := Some "users";
                ClusterCacheClient.arg_requestTimeout := None;
                ClusterCacheClient.arg_requestOptions := None;
                ClusterCacheClient.arg_updateAgeOnGet := None |})).2 in
  let overrides :=
    {| Types.allowStale := None; Types.ttl := Some 1;
       Types.updateAgeOnGet := None; Types.size := Some 5 |} in
  let merged :=
    {| Types.allowStale := Some false; Types.ttl := Some 1;
       Types.updateAgeOnGet := Some true; Types.size := Some 5 |} in
  let first :=
    ClusterCacheClient.set (ids := Uuid.counting) this st "42" (VStr "Ada")
      (Some overrides) in
  let second :=
    ClusterCacheClient.get (ids := Uuid.counting) first.1.2 first.2 "42" None in
  ClusterCacheClient.allowOverrides (ClusterCacheClient.defaultConfig st) = true
  ∧ ClusterCacheClient.canSend st = true
  ∧ ClusterCacheClient.requestOptions (ClusterCacheClient.defaultConfig first.2)
    = merged
  ∧ (∃ rq, last (ClusterCacheClient.sent second.2) = Some rq
           ∧ Types.operation rq = "get"
           ∧ Types.options (Types.args rq) = Some merged)
  ∧ (∀ x, Types.ttl overrides = Some x → Types.ttl merged = Some x)
  ∧ (∀ x, Types.size overrides = Some x → Types.size merged = Some x).
Proof.
  intros this st overrides merged first second.
  split; [reflexivity |]. split; [reflexivity |].
  apply (allowed_overrides_persist (ids := Uuid.counting) this st "42"
           (VStr "Ada") overrides); reflexivity.
Defined.

Lemma constructor_merges_into_defaultConfig_witness :
  let c :=
    {| ClusterCacheClient.arg_allowOverrides := None;
       ClusterCacheClient.arg_logger := None;
       ClusterCacheClient.arg_namespace := Some "users";
       ClusterCacheClient.arg_requestTimeout := Some 5000;
       ClusterCacheClient.arg_requestOptions :=
         Some {| Types.allowStale := None; Types.ttl := Some 60000;
                 Types.updateAgeOnGet := None; Types.size := None |};
       ClusterCacheClient.arg_updateAgeOnGet := None |} in
  let merged :=
    {| ClusterCacheClient.allowOverrides := false;
       ClusterCacheClient.logger := console;
       ClusterCacheClient.namespace := "users";
       ClusterCacheClient.requestTimeout := 5000;
       ClusterCacheClient.requestOptions :=
         {| Types.allowStale := Some false; Types.ttl := Some 60000;
            Types.updateAgeOnGet := Some true; Types.size := None |};
       ClusterCacheClient.updateAgeOnGet := true |} in
  let given := ClusterCacheClient.emptyConfig in
  ClusterCacheClient.isPrimary (ClusterCacheClient.start false) = false
  ∧ ∃ client1 st1 client2 st2,
      ClusterCacheClient.constructor (ids := Uuid.counting)
        (ClusterCacheClient.start false) (Some c) = (Normal client1, st1)
      ∧ ClusterCacheClient.defaultConfig st1 = merged
      ∧ ClusterCacheClient.constructor (ids := Uuid.counting) st1 None
        = (Normal client2, st2)
      ∧ ClusterCacheClient.config st2 client2
        = ClusterCacheClient.merge_config merged given
      ∧ (@None ClusterCacheClient.ConfigArgument = None →
         ClusterCacheClient.config st2 client2 = merged)
      ∧ (ClusterCacheClient.arg_namespace given = None →
         ClusterCacheClient.namespace (ClusterCacheClient.config st2 client2)
         = ClusterCacheClient.namespace merged
         ∧ ∀ ns, ClusterCacheClient.arg_namespace c = Some ns → ns ≠ "" →
                 ClusterCacheClient.this_namespace client2 = ns)
      ∧ (ClusterCacheClient.arg_requestTimeout given = None →
         ClusterCacheClient.requestTimeout (ClusterCacheClient.config st2 client2)
         = ClusterCacheClient.requestTimeout merged)
      ∧ (ClusterCacheClient.arg_requestOptions given = None →
         ClusterCacheClient.requestOptions (ClusterCacheClient.config st2 client2)
         = ClusterCacheClient.requestOptions merged).
Proof.
  intros c merged given. split; [reflexivity |].
  apply (constructor_merges_into_defaultConfig (ids := Uuid.counting)
           (ClusterCacheClient.start false) c None).
  reflexivity.
Defined.

(** In that process the second client, constructed with no configuration,
    has namespace [users] and request timeout 5000, where the initial
    defaults give it its own id and 300. *)
Example later_client_observes_earlier_settings :
  let c :=
    {| ClusterCacheClient.arg_allowOverrides := None;
       ClusterCacheClient.arg_logger := None;
       ClusterCacheClient.arg_namespace := Some "users";
       ClusterCacheClient.arg_requestTimeout := Some 5000;
       ClusterCacheClient.arg_requestOptions := None;
       ClusterCacheClient.arg_updateAgeOnGet := None |} in
  let st1 :=
    (ClusterCacheClient.constructor (ids := Uuid.counting)
       (ClusterCacheClient.start false) (Some c)).2 in
  let alone :=
    ClusterCacheClient.constructor (ids := Uuid.counting)
      (ClusterCacheClient.start false) None in
  let later := ClusterCacheClient.constructor (ids := Uuid.counting) st1 None in
  (∃ client, alone.1 = Normal client
     ∧ ClusterCacheClient.this_namespace client = "id-0"
     ∧ ClusterCacheClient.requestTimeout (ClusterCacheClient.config alone.2 client) = 300)
  ∧ (∃ client, later.1 = Normal client
       ∧ ClusterCacheClient.clientId client = "id-1"
       ∧ ClusterCacheClient.this_namespace client = "users"
       ∧ ClusterCacheClient.requestTimeout (ClusterCacheClient.config later.2 client)
         = 5000).
Proof. split; eexists; repeat split; reflexivity. Qed.

(** A worker's first [get]: the timer fires, the promise is rejected with
    the message naming both ids, and [pendingRequests] still has the
    request id; a reply that comes later removes it and leaves the
    promise rejected. *)
Example timeout_then_late_reply :
  let this :=
    {| ClusterCacheClient.clientId := "id-0";
       ClusterCacheClient.this_logger := console;
       ClusterCacheClient.this_namespace := "id-0";
       ClusterCacheClient.pendingRequests := ∅;
       ClusterCacheClient.sourceId := "cluster-cache" |} in
  let st :=
    (ClusterCacheClient.constructor (ids := Uuid.counting)
       (ClusterCacheClient.start false) None).2 in
  let requested := ClusterCacheClient.get (ids := Uuid.counting) this st "42" None in
  let timed_out := ClusterCacheClient.failsafeTimeout_fires requested.2 0 in
  let timeout :=
    ClusterCacheClient.Rejected (VError "Error"
      "Cluster cache get request timed out: request ID id-1, client ID id-0.") in
  let late :=
    ClusterCacheClient.handleReply requested.1.2 timed_out
      {| Types.clientId := "id-0"; Types.data := VStr "Ada";
         Types.error := VUndefined; Types.requestId := "id-1";
         Types.sourceId := "cluster-cache" |} in
  ClusterCacheClient.promises timed_out !! requested.1.1 = Some timeout
  ∧ is_Some (ClusterCacheClient.pendingRequests requested.1.2 !! "id-1")
  ∧ ClusterCacheClient.pendingRequests late.1 !! "id-1" = None
  ∧ ClusterCacheClient.promises late.2 !! requested.1.1 = Some timeout.
Proof. repeat split; try reflexivity. by eexists. Qed.

(** The coordinator of a primary process receives a message with an
    unknown operation: the error reaches the emitter of the event, no
    reply is sent and the state is as before. *)
Example unknown_operation_reaches_the_emitter :
  let st :=
    (ClusterCache.constructor (store := LRUCache.unbounded)
       (ClusterCache.start true)
       {| LRUCache.max := Some 5000; LRUCache.maxSize := None;
          LRUCache.ttl := None |} console).2 in
  ClusterCache.on_message (store := LRUCache.unbounded) st 7%nat
    {| Types.args :=
         {| Types.key := Some "42"; Types.namespace := "users";
            Types.options := None; Types.value := VUndefined |};
       Types.req_clientId := "id-0"; Types.operation := "flush";
       Types.req_requestId := "id-1"; Types.req_sourceId := "cluster-cache" |}
  = (Throw (VError "TypeError"
       "'flush' is not a recognized cluster cache operation."), st, []).
Proof. reflexivity. Qed.

(** The same coordinator, when the store rejects a value: the error
    becomes the reply. *)
Example set_rejection_becomes_reply :
  let rejecting : LRUCache.Model :=
    {| LRUCache.new := λ _, inr ∅;
       LRUCache.set := λ _ _ _ _,
         inl (VError "TypeError" "invalid size value") |} in
  ∀ this : ClusterCache.t,
    ClusterCache.handleRequest (store := rejecting) this 7%nat
      {| Types.args :=
           {| Types.key := Some "42"; Types.namespace := "users";
              Types.options := None; Types.value := VStr "Ada" |};
         Types.req_clientId := "id-0"; Types.operation := "set";
         Types.req_requestId := "id-1"; Types.req_sourceId := "cluster-cache" |}
    = (Normal (), this,
       [(7%nat,
         {| Types.clientId := "id-0"; Types.data := VUndefined;
            Types.error :=
              VError "Error"
                "Failed to cache value for key users:42: TypeError: invalid size value";
            Types.requestId := "id-1"; Types.sourceId := "cluster-cache" |})]).
Proof. reflexivity. Qed.

(** A client that allows overrides, in a fresh worker: before the [set]
    with overrides the configured [ttl] is 300000; the [get] that follows
    without overrides is sent with [ttl] 1 and [size] 5. *)
Example later_get_carries_earlier_overrides :
  let this :=
    {| ClusterCacheClient.clientId := "id-0";
       ClusterCacheClient.this_logger := console;
       ClusterCacheClient.this_namespace := "users";
       ClusterCacheClient.pendingRequests := ∅;
       ClusterCacheClient.sourceId := "cluster-cache" |} in
  let st :=
    (ClusterCacheClient.constructor (ids := Uuid.counting)
       (ClusterCacheClient.start false)
       (Some {| ClusterCacheClient.arg_allowOverrides := Some true;
                ClusterCacheClient.arg_logger := None;
                ClusterCacheClient.arg_namespace := Some "users";
                ClusterCacheClient.arg_requestTimeout := None;
                ClusterCacheClient.arg_requestOptions := None;
                ClusterCacheClient.arg_updateAgeOnGet := None |})).2 in
  let first :=
    ClusterCacheClient.set (ids := Uuid.counting) this st "42" (VStr "Ada")
      (Some {| Types.allowStale := None; Types.ttl := Some 1;
               Types.updateAgeOnGet := None; Types.size := Some 5 |}) in
  let second :=
    ClusterCacheClient.get (ids := Uuid.counting) first.1.2 first.2 "42" None in
  Types.ttl (ClusterCacheClient.requestOptions (ClusterCacheClient.defaultConfig st))
    = Some 300000
  ∧ (Types.options ∘ Types.args <$> last (ClusterCacheClient.sent second.2))
    = Some (Some {| Types.allowStale := Some false; Types.ttl := Some 1;
                    Types.updateAgeOnGet := Some true; Types.size := Some 5 |}).
Proof. split; reflexivity. Qed.

(** *** Further theorems at concrete inputs *)

Lemma applyNamespace_inj_separator_free_witness :
  contains ":" "users" = false
  ∧ contains ":" "users" = false
  ∧ ClusterCache.applyNamespace "users" (Some "42:7")
    = ClusterCache.applyNamespace "users" (Some "42:7")
  ∧ ("users" = "users" ∧ "42:7" = "42:7").
Proof.
  split; [reflexivity |]. split; [reflexivity |]. split; [reflexivity |].
  apply (applyNamespace_inj_separator_free "users" "users" "42:7" "42:7");
    reflexivity.
Defined.

Lemma applyNamespace_distinct_keys_witness :
  "c" ≠ "c:d"
  ∧ ClusterCache.applyNamespace "a:b" (Some "c")
    ≠ ClusterCache.applyNamespace "a:b" (Some "c:d").
Proof.
  split; [discriminate |].
  apply (applyNamespace_distinct_keys "a:b" "c" "c:d"). discriminate.
Defined.

Lemma clear_other_namespace_witness :
  let this :=
    {| ClusterCache.cache := <["orders:7" := VNum 7]> (<["users:42" := VStr "Ada"]> ∅);
       ClusterCache.logger := console;
       ClusterCache.options :=
         {| LRUCache.max := Some 5000; LRUCache.maxSize := None;
            LRUCache.ttl := None |};
       ClusterCache.sourceId := "cluster-cache" |} in
  let args :=
    {| Types.key := None; Types.namespace := "users"; Types.options := None;
       Types.value := VUndefined |} in
  contains ":" (Types.namespace args) = false
  ∧ contains ":" "orders" = false
  ∧ "orders" ≠ Types.namespace args
  ∧ ClusterCache.cache (ClusterCache.clear this args).2
      !! ClusterCache.applyNamespace "orders" (Some "7")
    = ClusterCache.cache this !! ClusterCache.applyNamespace "orders" (Some "7").
Proof.
  intros this args.
  split; [reflexivity |]. split; [reflexivity |]. split; [discriminate |].
  apply (clear_other_namespace this args "orders" (Some "7"));
    [reflexivity | reflexivity | discriminate].
Defined.

Lemma delete_absent_key_witness :
  let this :=
    {| ClusterCache.cache := <["users:42" := VStr "Ada"]> ∅;
       ClusterCache.logger := console;
       ClusterCache.options :=
         {| LRUCache.max := Some 5000; LRUCache.maxSize := None;
            LRUCache.ttl := None |};
       ClusterCache.sourceId := "cluster-cache" |} in
  let args :=
    {| Types.key := Some "43"; Types.namespace := "users"; Types.options := None;
       Types.value := VUndefined |} in
  ClusterCache.cache this
    !! ClusterCache.applyNamespace (Types.namespace args) (Types.key args) = None
  ∧ ClusterCache.delete this args = (Normal (VStr "OK"), this).
Proof.
  intros this args. split; [reflexivity |].
  apply (delete_absent_key this args). reflexivity.
Defined.

Lemma handleRequest_replies_once_witness :
  let this :=
    {| ClusterCache.cache := <["users:42" := VStr "Ada"]> ∅;
       ClusterCache.logger := console;
       ClusterCache.options :=
         {| LRUCache.max := Some 5000; LRUCache.maxSize := None;
            LRUCache.ttl := None |};
       ClusterCache.sourceId := "cluster-cache" |} in
  let request :=
    {| Types.args :=
         {| Types.key := Some "42"; Types.namespace := "users";
            Types.options := None; Types.value := VUndefined |};
       Types.req_clientId := "id-0"; Types.operation := "get";
       Types.req_requestId := "id-1"; Types.req_sourceId := "cluster-cache" |} in
  ClusterCache.recognized (Types.operation request) = true
  ∧ ∃ this' r,
      ClusterCache.handleRequest (store := LRUCache.unbounded) this 7%nat request
      = (Normal (), this', [(7%nat, r)])
      ∧ Types.clientId r = Types.req_clientId request
      ∧ Types.requestId r = Types.req_requestId request
      ∧ Types.sourceId r = Types.req_sourceId request
      ∧ (Types.error r = VUndefined ∨ Types.data r = VUndefined).
Proof.
  intros this request. split; [reflexivity |].
  apply (handleRequest_replies_once (store := LRUCache.unbounded) this 7%nat request).
  reflexivity.
Defined.

Lemma rejected_set_becomes_error_reply_witness :
  let this :=
    {| ClusterCache.cache := ∅;
       ClusterCache.logger := console;
       ClusterCache.options :=
         {| LRUCache.max := None; LRUCache.maxSize := Some 10;
            LRUCache.ttl := None |};
       ClusterCache.sourceId := "cluster-cache" |} in
  let args :=
    {| Types.key := Some "42"; Types.namespace := "users"; Types.options := None;
       Types.value := VStr "Ada" |} in
  let sent :=
    {| Types.clientId := "id-0";
       Types.data := VUndefined;
       Types.error :=
         VError "Error"
           "Failed to cache value for key users:42: TypeError: invalid size value";
       Types.requestId := "id-1";
       Types.sourceId := "cluster-cache" |} in
  LRUCache.set (Model := LRUCache.rejecting) (ClusterCache.cache this)
    (ClusterCache.applyNamespace (Types.namespace args) (Types.key args))
    (Types.value args) (Types.options args)
    = inl (VError "TypeError" "invalid size value")
  ∧ ClusterCache.handleRequest (store := LRUCache.rejecting) this 7%nat
      {| Types.args := args; Types.req_clientId := "id-0";
         Types.operation := "set"; Types.req_requestId := "id-1";
         Types.req_sourceId := "cluster-cache" |}
    = (Normal (), this, [(7%nat, sent)])
  ∧ IPC.reply sent
    = {| Types.clientId := "id-0"; Types.data := VUndefined;
         Types.error := VObj []; Types.requestId := "id-1";
         Types.sourceId := "cluster-cache" |}.
Proof.
  intros this args sent. split; [reflexivity |].
  apply (rejected_set_becomes_error_reply (store := LRUCache.rejecting) this 7%nat
           args "id-0" "id-1" "cluster-cache" "TypeError" "invalid size value").
  reflexivity.
Defined.

(** A store whose [set] throws [new Error()]: the text of an [Error]
    without message is its name alone. *)
Example rejected_set_with_empty_message :
  let throwing : LRUCache.Model :=
    {| LRUCache.new := λ _, inr ∅;
       LRUCache.set := λ _ _ _ _, inl (VError "Error" "") |} in
  ∀ this : ClusterCache.t,
    (ClusterCache.set (store := throwing) this
       {| Types.key := Some "42"; Types.namespace := "users";
          Types.options := None; Types.value := VStr "Ada" |}).1
    = Throw (VError "Error" "Failed to cache value for key users:42: Error").
Proof. reflexivity. Qed.

Lemma handleReply_ignores_witness :
  let this :=
    {| ClusterCacheClient.clientId := "id-0";
       ClusterCacheClient.this_logger := console;
       ClusterCacheClient.this_namespace := "id-0";
       ClusterCacheClient.pendingRequests :=
         <["id-1" := {| ClusterCacheClient.failsafeTimeout := 0%nat;
                        ClusterCacheClient.promise := 0%nat |}]> ∅;
       ClusterCacheClient.sourceId := "cluster-cache" |} in
  let st := ClusterCacheClient.start false in
  let reply :=
    {| Types.clientId := "id-0"; Types.data := VStr "Ada";
       Types.error := VUndefined; Types.requestId := "id-1";
       Types.sourceId := "another-protocol" |} in
  (Types.sourceId reply ≠ ClusterCacheClient.sourceId this
   ∨ Types.clientId reply ≠ ClusterCacheClient.clientId this
   ∨ ClusterCacheClient.pendingRequests this !! Types.requestId reply = None)
  ∧ ClusterCacheClient.handleReply this st reply = (this, st).
Proof.
  intros this st reply. split; [left; discriminate |].
  apply (handleReply_ignores this st reply). left. discriminate.
Defined.

Lemma requests_are_independent_witness :
  let this :=
    {| ClusterCacheClient.clientId := "id-0";
       ClusterCacheClient.this_logger := console;
       ClusterCacheClient.this_namespace := "id-0";
       ClusterCacheClient.pendingRequests := ∅;
       ClusterCacheClient.sourceId := "cluster-cache" |} in
  let st :=
    (ClusterCacheClient.constructor (ids := Uuid.counting)
       (ClusterCacheClient.start false) None).2 in
  let args1 :=
    {| Types.key := Some "42"; Types.namespace := "id-0"; Types.options := None;
       Types.value := VUndefined |} in
  let args2 :=
    {| Types.key := Some "43"; Types.namespace := "id-0"; Types.options := None;
       Types.value := VUndefined |} in
  let first := ClusterCacheClient.request (ids := Uuid.counting) this st "get" args1 in
  let second :=
    ClusterCacheClient.request (ids := Uuid.counting) first.1.2 first.2 "delete" args2 in
  let replied :=
    ClusterCacheClient.handleReply second.1.2 second.2
      {| Types.clientId := "id-0"; Types.data := VStr "OK";
         Types.error := VUndefined; Types.requestId := "id-2";
         Types.sourceId := "cluster-cache" |} in
  "id-1" ≠ "id-2"
  ∧ (first.1.1 ≠ second.1.1
     ∧ is_Some (ClusterCacheClient.pendingRequests second.1.2 !! "id-1")
     ∧ is_Some (ClusterCacheClient.pendingRequests second.1.2 !! "id-2")
     ∧ ClusterCacheClient.promises replied.2 !! second.1.1
       = Some (ClusterCacheClient.Fulfilled (VStr "OK"))
     ∧ ClusterCacheClient.promises replied.2 !! first.1.1
       = Some ClusterCacheClient.Pending
     ∧ ClusterCacheClient.pendingRequests replied.1 !! "id-1"
       = Some {| ClusterCacheClient.failsafeTimeout := 0%nat;
                 ClusterCacheClient.promise := first.1.1 |}
     ∧ ClusterCacheClient.pendingRequests replied.1 !! "id-2" = None
     ∧ is_Some (ClusterCacheClient.timers replied.2 !! 0%nat)).
Proof.
  intros this st args1 args2 first second replied.
  split; [discriminate |].
  apply (requests_are_independent (ids := Uuid.counting) this st "get" "delete"
           args1 args2 (VStr "OK")).
  discriminate.
Defined.

Lemma request_without_channel_witness :
  let this :=
    {| ClusterCacheClient.clientId := "id-0";
       ClusterCacheClient.this_logger := console;
       ClusterCacheClient.this_namespace := "id-0";
       ClusterCacheClient.pendingRequests := ∅;
       ClusterCacheClient.sourceId := "cluster-cache" |} in
  let st :=
    {| ClusterCacheClient.isPrimary := false;
       ClusterCacheClient.defaultConfig := ClusterCacheClient.initialDefaultConfig;
       ClusterCacheClient.idsDrawn := 1;
       ClusterCacheClient.timers := ∅;
       ClusterCacheClient.timersCreated := 0;
       ClusterCacheClient.promises := [];
       ClusterCacheClient.canSend := false;
       ClusterCacheClient.sent := [];
       ClusterCacheClient.warnings := [];
       ClusterCacheClient.listeners := ["id-0"] |} in
  let args :=
    {| Types.key := Some "42"; Types.namespace := "id-0"; Types.options := None;
       Types.value := VUndefined |} in
  let requested := ClusterCacheClient.request (ids := Uuid.counting) this st "get" args in
  let timed_out := ClusterCacheClient.failsafeTimeout_fires requested.2 0%nat in
  ClusterCacheClient.canSend st = false
  ∧ (ClusterCacheClient.sent requested.2 = []
     ∧ is_Some (ClusterCacheClient.pendingRequests requested.1.2 !! "id-1")
     ∧ ClusterCacheClient.promises requested.2 !! requested.1.1
       = Some ClusterCacheClient.Pending
     ∧ ClusterCacheClient.sent timed_out = []
     ∧ ClusterCacheClient.promises timed_out !! requested.1.1
       = Some (ClusterCacheClient.Rejected (VError "Error"
           (ClusterCacheClient.timeoutMessage "get" "id-1" "id-0")))).
Proof.
  intros this st args requested timed_out. split; [reflexivity |].
  apply (request_without_channel (ids := Uuid.counting) this st "get" args).
  reflexivity.
Defined.

Lemma default_namespaces_are_private_witness :
  let st := ClusterCacheClient.start false in
  ClusterCacheClient.isPrimary st = false
  ∧ ClusterCacheClient.namespace (ClusterCacheClient.defaultConfig st) = ""
  ∧ ClusterCacheClient.arg_namespace
      (default ClusterCacheClient.emptyConfig None) = None
  ∧ "id-0" ≠ "id-1"
  ∧ ∃ client1 st1 client2 st2,
      ClusterCacheClient.constructor (ids := Uuid.counting) st None
      = (Normal client1, st1)
      ∧ ClusterCacheClient.constructor (ids := Uuid.counting) st1 None
        = (Normal client2, st2)
      ∧ ClusterCacheClient.this_namespace client1 = ClusterCacheClient.clientId client1
      ∧ ClusterCacheClient.this_namespace client2 = ClusterCacheClient.clientId client2
      ∧ ClusterCacheClient.this_namespace client1
        ≠ ClusterCacheClient.this_namespace client2.
Proof.
  intros st.
  split; [reflexivity |]. split; [reflexivity |]. split; [reflexivity |].
  split; [discriminate |].
  apply (default_namespaces_are_private (ids := Uuid.counting) st None None);
    [reflexivity | reflexivity | reflexivity | reflexivity | discriminate].
Defined.


(** A [set] that the store rejects, from the client's call to the
    client's promise: the promise is rejected with the empty object. *)
Example rejected_set_round_trip :
  let coordinator :=
    {| ClusterCache.cache := ∅;
       ClusterCache.logger := console;
       ClusterCache.options :=
         {| LRUCache.max := None; LRUCache.maxSize := Some 10;
            LRUCache.ttl := None |};
       ClusterCache.sourceId := "cluster-cache" |} in
  let this :=
    {| ClusterCacheClient.clientId := "id-0";
       ClusterCacheClient.this_logger := console;
       ClusterCacheClient.this_namespace := "users";
       ClusterCacheClient.pendingRequests := ∅;
       ClusterCacheClient.sourceId := "cluster-cache" |} in
  let st :=
    (ClusterCacheClient.constructor (ids := Uuid.counting)
       (ClusterCacheClient.start false) None).2 in
  let requested :=
    ClusterCacheClient.set (ids := Uuid.counting) this st "42" (VStr "Ada") None in
  ∃ msg r,
    last (ClusterCacheClient.sent requested.2) = Some msg
    ∧ (ClusterCache.handleRequest (store := LRUCache.rejecting) coordinator 7%nat
         (IPC.request msg)).2
      = [(7%nat, r)]
    ∧ Types.error r
      = VError "Error"
          "Failed to cache value for key users:42: TypeError: invalid size value"
    ∧ ClusterCacheClient.promises
        (ClusterCacheClient.handleReply requested.1.2 requested.2 (IPC.reply r)).2
        !! requested.1.1
      = Some (ClusterCacheClient.Rejected (VObj [])).
Proof. eexists _, _. repeat split; reflexivity. Qed.

(** In that exchange the promise is fulfilled with the stored value. *)
Example get_round_trip_value :
  let coordinator :=
    {| ClusterCache.cache := <["users:42" := VStr "Ada"]> ∅;
       ClusterCache.logger := console;
       ClusterCache.options :=
         {| LRUCache.max := Some 5000; LRUCache.maxSize := None;
            LRUCache.ttl := None |};
       ClusterCache.sourceId := "cluster-cache" |} in
  let this :=
    {| ClusterCacheClient.clientId := "id-0";
       ClusterCacheClient.this_logger := console;
       ClusterCacheClient.this_namespace := "users";
       ClusterCacheClient.pendingRequests := ∅;
       ClusterCacheClient.sourceId := "cluster-cache" |} in
  let st :=
    (ClusterCacheClient.constructor (ids := Uuid.counting)
       (ClusterCacheClient.start false) None).2 in
  let requested :=
    ClusterCacheClient.get (ids := Uuid.counting) this st "42" None in
  ∃ msg r,
    last (ClusterCacheClient.sent requested.2) = Some msg
    ∧ (ClusterCache.handleRequest (store := LRUCache.unbounded) coordinator 7%nat
         (IPC.request msg)).2
      = [(7%nat, r)]
    ∧ ClusterCacheClient.promises
        (ClusterCacheClient.handleReply requested.1.2 requested.2 (IPC.reply r)).2
        !! requested.1.1
      = Some (ClusterCacheClient.Fulfilled (VStr "Ada")).
Proof. eexists _, _. repeat split; reflexivity. Qed.

(** A logger given as an object literal is merged into the console and
    the configuration keeps the console as its logger, so the client
    warns through the console object; a logger that is an instance of a
    class replaces it, for this client and for the clients constructed
    after it. *)
Example logger_literal_and_instance :
  let config (l : ClusterCacheClient.LoggerArgument) :=
    Some {| ClusterCacheClient.arg_allowOverrides := None;
            ClusterCacheClient.arg_logger := Some l;
            ClusterCacheClient.arg_namespace := None;
            ClusterCacheClient.arg_requestTimeout := None;
            ClusterCacheClient.arg_requestOptions := None;
            ClusterCacheClient.arg_updateAgeOnGet := None |} in
  let literal :=
    ClusterCacheClient.constructor (ids := Uuid.counting)
      (ClusterCacheClient.start false)
      (config (ClusterCacheClient.loggerLiteral "quiet")) in
  let instance :=
    ClusterCacheClient.constructor (ids := Uuid.counting)
      (ClusterCacheClient.start false)
      (config (ClusterCacheClient.loggerInstance (customLogger "winston"))) in
  let later := ClusterCacheClient.constructor (ids := Uuid.counting) instance.2 None in
  ClusterCacheClient.logger (ClusterCacheClient.defaultConfig literal.2) = console
  ∧ (∃ client, literal.1 = Normal client
       ∧ ClusterCacheClient.this_logger client = console)
  ∧ ClusterCacheClient.logger (ClusterCacheClient.defaultConfig instance.2)
    = customLogger "winston"
  ∧ (∃ client, later.1 = Normal client
       ∧ ClusterCacheClient.this_logger client = customLogger "winston").
Proof. repeat split; try reflexivity; by eexists. Qed.
